(** * DriveBay: booking lifecycle and interval-conflict resolution

    A shallow embedding of the booking and listing operations of the
    DriveBay application ([App.tsx], [services/firestoreService.ts],
    [components/ListingForm.tsx], [components/ConfirmationModal.tsx],
    [components/ProfileView.tsx], [types.ts]) and the properties of its
    specification that concern them.

    Conventions of the embedding:
    - a JavaScript string is a [string]; every character stands for one
      code unit below 256, and [<] on strings is the lexicographic order
      on code units;
    - a JavaScript [number] is [NaN], an integer or an infinity
      ([number] below); the integers the code computes are doubles:
      [parseInt] and the arithmetic of the listing form round their
      results to 53 significant bits and overflow to an infinity;
    - a Firestore collection is a finite map from document ids to
      documents; a query returns the documents that satisfy its [where]
      clauses;
    - an [async] operation runs to completion before the next one starts;
      the answers of the outside world during one operation (does a
      query, a write or the e-mail generation succeed; which id and
      timestamp does [addDoc] assign) are collected in an [Env]. *)

From Stdlib Require Import ZArith String Ascii List Bool Lia QArith.
From stdpp Require Import base option strings gmap fin_maps.
Import ListNotations.

Local Open Scope string_scope.
Local Open Scope Z_scope.

(** ** JavaScript values used by the code *)

(** A [number]: [NaN], an integer, or an infinity ([Infinity true] is
    [-Infinity]). The two zeros are one number here: the code modelled
    only multiplies, adds and compares numbers, and no such operation
    tells [-0] from [0]. *)
Inductive number : Type :=
  | NaN : number
  | Int : Z -> number
  | Infinity : bool -> number.

Definition isNaN (n : number) : bool :=
  match n with NaN => true | _ => false end.

(** [a < b] and [a > b] on numbers: false as soon as one side is [NaN]. *)
Definition num_lt (a b : number) : bool :=
  match a, b with
  | Int x, Int y => x <? y
  | Int _, Infinity negative => negb negative
  | Infinity negative, Int _ => negative
  | Infinity negative, Infinity negative' => negative && negb negative'
  | _, _ => false
  end.

Definition num_gt (a b : number) : bool := num_lt b a.

(** [a >= b] and [a === b] on numbers: false as soon as one side is
    [NaN]. *)
Definition num_ge (a b : number) : bool :=
  match a, b with
  | Int x, Int y => y <=? x
  | Int _, Infinity negative => negative
  | Infinity negative, Int _ => negb negative
  | Infinity negative, Infinity negative' => negb negative || negative'
  | _, _ => false
  end.

Definition num_eq (a b : number) : bool :=
  match a, b with
  | Int x, Int y => x =? y
  | Infinity negative, Infinity negative' => Bool.eqb negative negative'
  | _, _ => false
  end.

(** The double nearest to an integer, ties to the even significand: the
    integer itself up to [2^53]; above, the nearest multiple of the unit
    in the last of its 53 leading bits; an infinity when that is
    [2^1024]. *)
Definition toNumber (z : Z) : number :=
  let a := Z.abs z in
  let e := Z.log2 a - 52 in
  if e <=? 0 then Int z
  else
    let q := Z.shiftr a e in
    let r := a - Z.shiftl q e in
    let half := Z.shiftl 1 (e - 1) in
    let q' := if (half <? r) || ((half =? r) && Z.odd q) then q + 1 else q in
    let v := Z.shiftl q' e in
    if 2 ^ 1024 <=? v then Infinity (z <? 0) else Int (Z.sgn z * v).

(** [a * b] and [a + b] on numbers whose integers are doubles: the
    exact product or sum, rounded. *)
Definition num_mul (a b : number) : number :=
  match a, b with
  | Int x, Int y => toNumber (x * y)
  | Infinity negative, Int y | Int y, Infinity negative =>
      if y =? 0 then NaN else Infinity (xorb negative (y <? 0))
  | Infinity negative, Infinity negative' => Infinity (xorb negative negative')
  | _, _ => NaN
  end.

Definition num_add (a b : number) : number :=
  match a, b with
  | Int x, Int y => toNumber (x + y)
  | Infinity negative, Int _ | Int _, Infinity negative => Infinity negative
  | Infinity negative, Infinity negative' =>
      if Bool.eqb negative negative' then Infinity negative else NaN
  | _, _ => NaN
  end.

(** [a < b] and [a > b] on strings: lexicographic on code units. *)
Fixpoint str_lt (a b : string) : bool :=
  match a, b with
  | EmptyString, EmptyString => false
  | EmptyString, String _ _ => true
  | String _ _, EmptyString => false
  | String x a', String y b' =>
      if (nat_of_ascii x <? nat_of_ascii y)%nat then true
      else if (nat_of_ascii y <? nat_of_ascii x)%nat then false
      else str_lt a' b'
  end.

Definition str_gt (a b : string) : bool := str_lt b a.

(** [\d]: an ASCII decimal digit. *)
Definition isDigit (c : ascii) : bool :=
  ((48 <=? nat_of_ascii c) && (nat_of_ascii c <=? 57))%nat.

Definition digitValue (c : ascii) : Z := Z.of_nat (nat_of_ascii c) - 48.

(** [s.split(':')]: the pieces between the colons; a string without a
    colon is its own single piece. *)
Fixpoint split_colon (s : string) : list string :=
  match s with
  | EmptyString => [EmptyString]
  | String c s' =>
      if Ascii.eqb c ":" then EmptyString :: split_colon s'
      else match split_colon s' with
           | p :: ps => String c p :: ps
           | [] => [String c EmptyString]
           end
  end.

(** The value of a string of decimal digits, [None] when another
    character occurs. *)
Fixpoint digitsValue (acc : Z) (s : string) : option Z :=
  match s with
  | EmptyString => Some acc
  | String c s' =>
      if isDigit c then digitsValue (acc * 10 + digitValue c) s' else None
  end.

(** [Number(s)] on the strings the code applies it to: a string of
    decimal digits has its decimal value and the empty string is [0].
    The other literals JavaScript converts (sign, white space, fraction,
    exponent, radix prefix) never reach [Number]: it is only called on the
    pieces of a string that passed the pattern test of [timeToMinutes]. *)
Definition Number (s : string) : number :=
  match digitsValue 0 s with
  | Some z => Int z
  | None => NaN
  end.

(** White space skipped by [parseInt], among the code units below 256. *)
Definition isWhiteSpace (c : ascii) : bool :=
  let n := nat_of_ascii c in
  ((n =? 9) || (n =? 10) || (n =? 11) || (n =? 12) || (n =? 13)
   || (n =? 32) || (n =? 160))%nat.

Fixpoint trimStart (s : string) : string :=
  match s with
  | EmptyString => EmptyString
  | String c s' => if isWhiteSpace c then trimStart s' else s
  end.

(** The value of the longest prefix of decimal digits, [None] when the
    string does not start with a digit. *)
Fixpoint leadingDigits (acc : option Z) (s : string) : option Z :=
  match s with
  | EmptyString => acc
  | String c s' =>
      if isDigit c
      then leadingDigits (Some (default 0 acc * 10 + digitValue c)) s'
      else acc
  end.

(** [parseInt(s, 10)]: leading white space, an optional sign, then the
    longest run of digits, read as a double; what follows is ignored;
    [NaN] without a digit. All the digits count; the standard also lets
    an engine read the digits behind the 20th significant one as zeros,
    which makes no difference below [10^20] nor for the overflowing run
    of the properties. *)
Definition parseInt (s : string) : number :=
  let t := trimStart s in
  let '(sign, r) :=
    match t with
    | String c r =>
        if Ascii.eqb c "-" then (-1, r)
        else if Ascii.eqb c "+" then (1, r)
        else (1, t)
    | EmptyString => (1, t)
    end in
  match leadingDigits None r with
  | Some z => toNumber (sign * z)
  | None => NaN
  end.

(** ** The three time parsers *)

(** [/^\d{1,2}:\d{2}$/.test(s)]. *)
Definition timePattern (s : string) : bool :=
  match list_ascii_of_string s with
  | [h; c; m1; m2] =>
      isDigit h && Ascii.eqb c ":" && isDigit m1 && isDigit m2
  | [h1; h2; c; m1; m2] =>
      isDigit h1 && isDigit h2 && Ascii.eqb c ":" && isDigit m1 && isDigit m2
  | _ => false
  end.

(** The body shared, word for word, by [timeToMinutes] of [App.tsx] and
    of [ConfirmationModal.tsx]. A piece missing from the split is
    [undefined], for which [isNaN] holds. *)
Definition timeToMinutes_checked (timeStr : string) : number :=
  if String.eqb timeStr "" || negb (timePattern timeStr) then NaN
  else
    let parts := map Number (split_colon timeStr) in
    let hours := nth 0 parts NaN in
    let minutes := nth 1 parts NaN in
    match hours, minutes with
    | Int h, Int m =>
        if (h <? 0) || (h >? 23) || (m <? 0) || (m >? 59) then NaN
        else Int (h * 60 + m)
    | _, _ => NaN
    end.


(** ** Data model ([types.ts]) *)

Inductive Status : Type :=
  | pending
  | confirmed
  | denied
  | canceled_by_user
  | canceled_by_owner.

#[global] Instance Status_eq_dec : EqDecision Status.
Proof. solve_decision. Defined.

Record User : Type := mkUser {
  user_id : string;
  user_name : string;
  user_email : string
}.

Module Booking.
(** What a document of the [bookings] collection holds:
    [Omit<Booking, 'id'>]. [rate] is only ever copied. *)
Record data : Type := mkData {
  listingId : string;
  userId : string;
  bookerName : string;
  bookerEmail : string;
  ownerId : string;
  ownerEmail : string;
  location : string;
  date : string;
  startTime : string;
  endTime : string;
  rate : Q;
  status : Status;
  createdAt : option Z
}.

(** A [Booking]: the document together with its id ([docToBooking]). *)
Record t : Type := mk { id : string; fields : data }.

(** [{ ...b, status: s }]. *)
Definition with_status (s : Status) (d : data) : data :=
  mkData (listingId d) (userId d) (bookerName d) (bookerEmail d)
         (ownerId d) (ownerEmail d) (location d) (date d)
         (startTime d) (endTime d) (rate d) s (createdAt d).
End Booking.

Module Listing.
(** [Omit<Listing, 'id' | 'ownerId'>]: what the listing form submits. *)
Record input : Type := mkInput {
  address : string;
  city : string;
  state : string;
  zipCode : string;
  country : string;
  rate : Q;
  date : string;
  startTime : string;
  endTime : string;
  contactEmail : string;
  description : string
}.

(** A document of the [listings] collection: [Omit<Listing, 'id'>]. *)
Record data : Type := mkData { ownerId : string; details : input }.

Record t : Type := mk { id : string; fields : data }.
End Listing.

(** ** The durable store ([services/firestoreService.ts]) *)

(** The two collections. *)
Record Store : Type := mkStore {
  bookings : gmap string Booking.data;
  listings : gmap string Listing.data
}.

(** The answers of the outside world during one operation. *)
Record Env : Type := mkEnv {
  queryOk : bool;             (* [getDocs] resolves *)
  writeOk : string -> bool;   (* [addDoc], [updateDoc], [deleteDoc] on this
                                 document id resolves *)
  emailOk : bool;             (* the e-mail text generation resolves *)
  newId : string;             (* the id [addDoc] assigns *)
  now : Z                     (* [Timestamp.now()] *)
}.

Definition docToBooking (kd : string * Booking.data) : Booking.t :=
  Booking.mk kd.1 kd.2.

Definition docToListing (kd : string * Listing.data) : Listing.t :=
  Listing.mk kd.1 kd.2.

(** [getExistingBookingsForListing]: the documents with this [listingId]
    and this [date]; the empty list when the query throws. *)
Definition getExistingBookingsForListing (e : Env)
    (db : gmap string Booking.data) (listingId date : string)
    : list Booking.t :=
  if queryOk e then
    docToBooking <$>
      map_to_list
        (filter (λ kd : string * Booking.data,
                   Booking.listingId kd.2 = listingId ∧ Booking.date kd.2 = date)
                db)
  else [].

(** [getBookingRequestsForOwner]: the owner's documents with status
    ['pending'] (the sort by creation time is left out); the empty list
    when the query throws. *)
Definition getBookingRequestsForOwner (e : Env)
    (db : gmap string Booking.data) (ownerId : string) : list Booking.t :=
  if queryOk e then
    docToBooking <$>
      map_to_list
        (filter (λ kd : string * Booking.data,
                   Booking.ownerId kd.2 = ownerId ∧ Booking.status kd.2 = pending)
                db)
  else [].

(** [checkForExistingListing]: the listings with the same address, city,
    zip code and date; the empty list when the query throws. *)
Definition checkForExistingListing (e : Env)
    (db : gmap string Listing.data) (l : Listing.data) : list Listing.t :=
  if queryOk e then
    docToListing <$>
      map_to_list
        (filter (λ kd : string * Listing.data,
                   Listing.address (Listing.details kd.2)
                     = Listing.address (Listing.details l)
                   ∧ Listing.city (Listing.details kd.2)
                     = Listing.city (Listing.details l)
                   ∧ Listing.zipCode (Listing.details kd.2)
                     = Listing.zipCode (Listing.details l)
                   ∧ Listing.date (Listing.details kd.2)
                     = Listing.date (Listing.details l))
                db)
  else [].

(** The write operations return [None] when they throw. *)

(** [addListingToFirestore]. *)
Definition addListingToFirestore (e : Env) (db : gmap string Listing.data)
    (l : Listing.data) : option (gmap string Listing.data * Listing.t) :=
  if writeOk e (newId e)
  then Some (<[newId e := l]> db, Listing.mk (newId e) l)
  else None.

(** [updateListingInFirestore]: [updateDoc] replaces the submitted fields
    and keeps the owner; it throws on a missing document. *)
Definition updateListingInFirestore (e : Env) (db : gmap string Listing.data)
    (listingId : string) (listingData : Listing.input)
    : option (gmap string Listing.data) :=
  match db !! listingId with
  | Some old =>
      if writeOk e listingId
      then Some (<[listingId := Listing.mkData (Listing.ownerId old) listingData]> db)
      else None
  | None => None
  end.

(** [addBookingToFirestore]: stamps [createdAt]. *)
Definition addBookingToFirestore (e : Env) (db : gmap string Booking.data)
    (b : Booking.data) : option (gmap string Booking.data * Booking.t) :=
  let fullBookingData :=
    Booking.mkData (Booking.listingId b) (Booking.userId b)
      (Booking.bookerName b) (Booking.bookerEmail b) (Booking.ownerId b)
      (Booking.ownerEmail b) (Booking.location b) (Booking.date b)
      (Booking.startTime b) (Booking.endTime b) (Booking.rate b)
      (Booking.status b) (Some (now e)) in
  if writeOk e (newId e)
  then Some (<[newId e := fullBookingData]> db, Booking.mk (newId e) fullBookingData)
  else None.

(** [updateBookingStatusInFirestore]: [updateDoc(ref, { status })]; it
    throws on a missing document. *)
Definition updateBookingStatusInFirestore (e : Env)
    (db : gmap string Booking.data) (bookingId : string) (s : Status)
    : option (gmap string Booking.data) :=
  match db !! bookingId with
  | Some _ =>
      if writeOk e bookingId
      then Some (alter (Booking.with_status s) bookingId db)
      else None
  | None => None
  end.

(** [deleteBookingFromFirestore]: [deleteDoc]; deleting a missing
    document is not an error. *)
Definition deleteBookingFromFirestore (e : Env)
    (db : gmap string Booking.data) (bookingId : string)
    : option (gmap string Booking.data) :=
  if writeOk e bookingId then Some (delete bookingId db) else None.

(** ** The operations of [App.tsx] *)

Inductive ToastType : Type := success | error.

(** What the caller observes of one operation: the last toast shown and
    whether the returned promise is rejected. *)
Record Outcome : Type := mkOutcome {
  toast : string;
  toastType : ToastType;
  thrown : bool
}.

Module App.

(** [timeToMinutes] of [App.tsx]. *)
Definition timeToMinutes (timeStr : string) : number :=
  timeToMinutes_checked timeStr.

(** The overlap test inside [approveBooking], on the four minute
    counts: the request is [a], the confirmed booking is [b]. *)
Definition intervalsOverlap (aStart aEnd bStart bEnd : number) : bool :=
  if isNaN bStart || isNaN bEnd then false
  else num_lt aStart bEnd && num_gt aEnd bStart.

(** The callback given to [confirmedBookings.some]. *)
Definition conflictsWith (requestStartMinutes requestEndMinutes : number)
    (confirmedBooking : Booking.t) : bool :=
  let existingStartMinutes :=
    timeToMinutes (Booking.startTime (Booking.fields confirmedBooking)) in
  let existingEndMinutes :=
    timeToMinutes (Booking.endTime (Booking.fields confirmedBooking)) in
  intervalsOverlap requestStartMinutes requestEndMinutes
                   existingStartMinutes existingEndMinutes.

Definition approveBooking (e : Env) (st : Store) (booking : Booking.t)
    : Store * Outcome :=
  let allBookingsForListing :=
    getExistingBookingsForListing e (bookings st)
      (Booking.listingId (Booking.fields booking))
      (Booking.date (Booking.fields booking)) in
  let confirmedBookings :=
    List.filter
      (λ b, bool_decide (Booking.status (Booking.fields b) = confirmed))
      allBookingsForListing in
  let requestStartMinutes :=
    timeToMinutes (Booking.startTime (Booking.fields booking)) in
  let requestEndMinutes :=
    timeToMinutes (Booking.endTime (Booking.fields booking)) in
  let isConflict :=
    existsb (conflictsWith requestStartMinutes requestEndMinutes)
            confirmedBookings in
  if isConflict then
    (st, mkOutcome
           "Approval failed: Conflicts with an existing confirmed booking."
           error false)
  else
    match updateBookingStatusInFirestore e (bookings st)
            (Booking.id booking) confirmed with
    | None => (st, mkOutcome "Failed to approve booking." error false)
    | Some db =>
        (mkStore db (listings st),
         if emailOk e
         then mkOutcome "Booking approved and confirmed!" success false
         else mkOutcome "Failed to approve booking." error false)
    end.

Definition denyBooking (e : Env) (st : Store) (booking : Booking.t)
    : Store * Outcome :=
  match updateBookingStatusInFirestore e (bookings st)
          (Booking.id booking) denied with
  | None => (st, mkOutcome "Failed to deny booking request." error false)
  | Some db =>
      (mkStore db (listings st),
       if emailOk e
       then mkOutcome "Booking request denied." success false
       else mkOutcome "Failed to deny booking request." error false)
  end.

Definition cancelBookingByUser (e : Env) (currentUser : option User)
    (st : Store) (booking : Booking.t) : Store * Outcome :=
  match currentUser with
  | None =>
      (st, mkOutcome "You must be logged in to cancel a booking." error false)
  | Some u =>
      if String.eqb (user_email u) "" then
        (st, mkOutcome "You must be logged in to cancel a booking." error false)
      else
        match updateBookingStatusInFirestore e (bookings st)
                (Booking.id booking) canceled_by_user with
        | None =>
            (st, mkOutcome "Failed to cancel booking. Please try again."
                   error false)
        | Some db =>
            (mkStore db (listings st),
             if emailOk e
             then mkOutcome "Booking successfully canceled." success false
             else mkOutcome "Failed to cancel booking. Please try again."
                    error false)
        end
  end.

Definition cancelBookingByOwner (e : Env) (st : Store) (booking : Booking.t)
    : Store * Outcome :=
  match updateBookingStatusInFirestore e (bookings st)
          (Booking.id booking) canceled_by_owner with
  | None =>
      (st, mkOutcome "Failed to cancel a conflicting booking." error false)
  | Some db =>
      (mkStore db (listings st),
       if emailOk e
       then mkOutcome "Conflicting booking canceled." success false
       else mkOutcome "Failed to cancel a conflicting booking." error false)
  end.

Definition deleteBooking (e : Env) (currentUser : option User)
    (st : Store) (bookingId : string) : Store * Outcome :=
  match currentUser with
  | None =>
      (st, mkOutcome "You must be logged in to delete a booking." error false)
  | Some _ =>
      match deleteBookingFromFirestore e (bookings st) bookingId with
      | None =>
          (st, mkOutcome "Failed to delete booking. Please try again."
                 error false)
      | Some db =>
          (mkStore db (listings st),
           mkOutcome "Booking permanently deleted." success false)
      end
  end.

(** [`${address}, ${city}, ${state} ${zipCode}`]. *)
Definition fullLocation (l : Listing.input) : string :=
  String.append (Listing.address l)
    (String.append ", "
       (String.append (Listing.city l)
          (String.append ", "
             (String.append (Listing.state l)
                (String.append " " (Listing.zipCode l)))))).

Definition requestBooking (e : Env) (currentUser : option User)
    (st : Store) (listing : Listing.t) (startTime endTime : string)
    : Store * Outcome :=
  let requestFailed :=
    mkOutcome "Sorry, something went wrong with the booking request."
      error true in
  match currentUser with
  | None => (st, mkOutcome "Please log in to book a driveway." error true)
  | Some u =>
      if String.eqb (user_email u) "" then
        (st, mkOutcome "Please log in to book a driveway." error true)
      else
        let l := Listing.details (Listing.fields listing) in
        let newRequestStartMinutes := timeToMinutes startTime in
        let newRequestEndMinutes := timeToMinutes endTime in
        if isNaN newRequestStartMinutes || isNaN newRequestEndMinutes
        then (st, requestFailed)
        else
          let newBookingData :=
            Booking.mkData (Listing.id listing) (user_id u) (user_name u)
              (user_email u) (Listing.ownerId (Listing.fields listing))
              (Listing.contactEmail l) (fullLocation l) (Listing.date l)
              startTime endTime (Listing.rate l) pending None in
          match addBookingToFirestore e (bookings st) newBookingData with
          | None => (st, requestFailed)
          | Some (db, _) =>
              (mkStore db (listings st),
               if emailOk e
               then mkOutcome
                      (String.append "Request sent for "
                         (String.append (fullLocation l) "!"))
                      success false
               else requestFailed)
          end
  end.

Definition addListing (e : Env) (currentUser : option User) (st : Store)
    (listingData : Listing.input) : Store * Outcome :=
  match currentUser with
  | None =>
      (st, mkOutcome "You must be logged in to list a driveway." error false)
  | Some u =>
      let newListingData := Listing.mkData (user_id u) listingData in
      let potentialDuplicates :=
        checkForExistingListing e (listings st) newListingData in
      let isDuplicate :=
        existsb
          (λ existing,
             str_lt (Listing.startTime listingData)
                    (Listing.endTime (Listing.details (Listing.fields existing)))
             && str_gt (Listing.endTime listingData)
                       (Listing.startTime (Listing.details (Listing.fields existing))))
          potentialDuplicates in
      if isDuplicate then
        (st, mkOutcome
               "A listing with this address and overlapping times already exists."
               error true)
      else
        match addListingToFirestore e (listings st) newListingData with
        | None =>
            (st, mkOutcome "Failed to list your driveway. Please try again."
                   error true)
        | Some (ls, _) =>
            (mkStore (bookings st) ls,
             if emailOk e
             then mkOutcome "Your driveway has been listed successfully!"
                    success false
             else mkOutcome "Failed to list your driveway. Please try again."
                    error true)
        end
  end.

(** [isConflict] in the loop of [updateListing]: the dates differ or
    the booking leaves the new window, the times compared as strings. *)
Definition listingConflict (listingData : Listing.input) (b : Booking.data)
    : bool :=
  negb (String.eqb (Listing.date listingData) (Booking.date b))
  || str_lt (Booking.startTime b) (Listing.startTime listingData)
  || str_gt (Booking.endTime b) (Listing.endTime listingData).

(** One turn of the loop of [updateListing] over the fetched bookings;
    what [cancelBookingByOwner] reports is dropped. *)
Definition cancelIfConflict (e : Env) (listingData : Listing.input)
    (st : Store) (booking : Booking.t) : Store :=
  let b := Booking.fields booking in
  let isConflict := listingConflict listingData b in
  if isConflict
     && (bool_decide (Booking.status b = confirmed)
         || bool_decide (Booking.status b = pending))
  then (cancelBookingByOwner e st booking).1
  else st.

Definition updateListing (e : Env) (currentUser : option User) (st : Store)
    (listingId : string) (listingData : Listing.input) : Store * Outcome :=
  match currentUser with
  | None =>
      (st, mkOutcome "You must be logged in to update a listing." error false)
  | Some _ =>
      let existingBookings :=
        getExistingBookingsForListing e (bookings st) listingId
          (Listing.date listingData) in
      let st1 := foldl (cancelIfConflict e listingData) st existingBookings in
      match updateListingInFirestore e (listings st1) listingId listingData with
      | None =>
          (st1, mkOutcome "Failed to update listing. Please try again."
                  error true)
      | Some ls =>
          (mkStore (bookings st1) ls,
           mkOutcome "Listing updated successfully!" success false)
      end
  end.

(** The user object handed to the callback of [onAuthStateChanged]. *)
Record FirebaseUser : Type := mkFirebaseUser {
  uid : string;
  displayName : option string;
  email : option string;
  photoURL : option string;
  phoneNumber : option string
}.

(** [value || fallback] on a string that may be [null]. *)
Definition orElse (value : option string) (fallback : string) : string :=
  match value with
  | Some v => if String.eqb v "" then fallback else v
  | None => fallback
  end.

(** The [User] the callback of [onAuthStateChanged] stores as
    [currentUser]; [avatarUrl] and [phoneNumber], which no operation
    reads, are not carried by [User]. *)
Definition userOfFirebaseUser (firebaseUser : FirebaseUser) : User :=
  mkUser (uid firebaseUser)
         (orElse (displayName firebaseUser) "User")
         (orElse (email firebaseUser) "No email provided").


End App.

Module ConfirmationModal.
(** [ConfirmationModal.tsx], [timeToMinutes]. *)
Definition timeToMinutes (timeStr : string) : number :=
  timeToMinutes_checked timeStr.

(** [handleConfirmClick]: the validation of the requested window, then
    the call of [onConfirm]. The result is the store and the validation
    error the modal shows, [None] when the modal closes. *)
Definition handleConfirmClick (onConfirm : string -> string -> Store * Outcome)
    (st : Store) (listing : Listing.t)
    (selectedStartTime selectedEndTime : string) : Store * option string :=
  let l := Listing.details (Listing.fields listing) in
  let startMinutes := timeToMinutes selectedStartTime in
  let endMinutes := timeToMinutes selectedEndTime in
  let listingStartMinutes := timeToMinutes (Listing.startTime l) in
  let listingEndMinutes := timeToMinutes (Listing.endTime l) in
  if isNaN startMinutes || isNaN endMinutes then
    (st, Some "Please enter a valid start and end time in HH:MM format.")
  else if num_ge startMinutes endMinutes then
    (st, Some "End time must be after start time.")
  else if num_lt startMinutes listingStartMinutes
          || num_gt endMinutes listingEndMinutes then
    (st, Some (String.append "Please select a time within the available window ("
                 (String.append (Listing.startTime l)
                    (String.append " - "
                       (String.append (Listing.endTime l) ").")))))
  else
    let r := onConfirm selectedStartTime selectedEndTime in
    (r.1,
     if thrown r.2
     then Some "An unexpected error occurred. Please try again."
     else None).
End ConfirmationModal.

Module ListingCard.
(** [handleConfirmBooking]: the [onConfirm] of the modal. *)
Definition handleConfirmBooking
    (addBooking : Listing.t -> string -> string -> Store * Outcome)
    (listing : Listing.t) (startTime endTime : string) : Store * Outcome :=
  addBooking listing startTime endTime.
End ListingCard.

Module ListingForm.
(** [ListingForm.tsx], [timeToMinutes]: no pattern test and no range
    check; [-1] is its marker of a wrong format. Hours and minutes are
    whatever [parseInt] reads, and their combination is computed on
    doubles. *)
Definition timeToMinutes (time : string) : number :=
  match split_colon time with
  | [p0; p1] =>
      let hours := parseInt p0 in
      let minutes := parseInt p1 in
      if negb (isNaN hours) && negb (isNaN minutes)
      then num_add (num_mul hours (Int 60)) minutes
      else Int (-1)
  | _ => Int (-1)
  end.

(** The state of the form: the text of every field. *)
Record FormState : Type := mkFormState {
  address : string;
  city : string;
  state : string;
  zipCode : string;
  country : string;
  description : string;
  rate : string;
  date : string;
  startTime : string;
  endTime : string;
  contactEmail : string
}.

(** What [handleSubmit] does: it shows a validation error, or calls
    [onSubmit] with the listing and the id of the listing being edited. *)
Inductive SubmitResult : Type :=
  | Invalid (validationError : string)
  | Submit (listing : Listing.input) (id : option string).

Section handleSubmit.

(** [parseFloat] on the text of the rate field: the number read when
    it is finite, [None] for [NaN]; the floating-point reading of the
    text is left to the caller. *)
Variable parseFloat : string -> option Q.

Definition handleSubmit (f : FormState) (initialData : option Listing.t)
    : SubmitResult :=
  if String.eqb (address f) "" || String.eqb (city f) ""
     || String.eqb (state f) "" || String.eqb (zipCode f) ""
     || String.eqb (country f) "" || String.eqb (rate f) ""
     || String.eqb (date f) "" || String.eqb (startTime f) ""
     || String.eqb (endTime f) "" || String.eqb (contactEmail f) ""
  then Invalid "Please fill out all required fields."
  else
    match parseFloat (rate f) with
    | None => Invalid "Rate must be a positive number."
    | Some parsedRate =>
        if Qle_bool parsedRate 0 then Invalid "Rate must be a positive number."
        else
          let startMinutes := timeToMinutes (startTime f) in
          let endMinutes := timeToMinutes (endTime f) in
          if num_eq startMinutes (Int (-1)) || num_eq endMinutes (Int (-1)) then
            Invalid
              "Please enter times in the valid HH:MM 24-hour format (e.g., 09:00)."
          else if num_ge startMinutes endMinutes then
            Invalid "End time must be after start time on the same day."
          else
            Submit
              (Listing.mkInput (address f) (city f) (state f) (zipCode f)
                 (country f) parsedRate (date f) (startTime f) (endTime f)
                 (contactEmail f) (description f))
              (Listing.id <$> initialData)
    end.

End handleSubmit.
End ListingForm.

Module ProfileView.
(** [BookingCard]: the two buttons are rendered under these
    conditions. *)
Definition canCancel (booking : Booking.t) : bool :=
  bool_decide (Booking.status (Booking.fields booking) = pending)
  || bool_decide (Booking.status (Booking.fields booking) = confirmed).

Definition canDelete (booking : Booking.t) : bool :=
  bool_decide
    (Booking.status (Booking.fields booking)
       ∈ [canceled_by_user; denied; canceled_by_owner]).
(** [handleFormSubmit]: the [onSubmit] of the listing form; an absent or
    empty id means a new listing. *)
Definition handleFormSubmit (e : Env) (currentUser : option User) (st : Store)
    (listingData : Listing.input) (id : option string) : Store * Outcome :=
  match id with
  | Some i =>
      if String.eqb i "" then App.addListing e currentUser st listingData
      else App.updateListing e currentUser st i listingData
  | None => App.addListing e currentUser st listingData
  end.
End ProfileView.

Module emailService.

(** [htmlBody.replace(/<br\s*\/?>/gi, '\n')]: one function per position
    within the pattern; each answers the converted rest of the text when
    the pattern is completed from there, and [None] when it is not. *)
Fixpoint replaceBr (s : string) : string :=
  match s with
  | EmptyString => EmptyString
  | String c s' =>
      if Ascii.eqb c "<" then
        match br_b s' with
        | Some rest => String "010" rest
        | None => String c (replaceBr s')
        end
      else String c (replaceBr s')
  end
with br_b (s : string) : option string :=
  match s with
  | EmptyString => None
  | String c s' =>
      if Ascii.eqb c "b" || Ascii.eqb c "B" then br_r s' else None
  end
with br_r (s : string) : option string :=
  match s with
  | EmptyString => None
  | String c s' =>
      if Ascii.eqb c "r" || Ascii.eqb c "R" then br_space s' else None
  end
with br_space (s : string) : option string :=
  match s with
  | EmptyString => None
  | String c s' =>
      if isWhiteSpace c then br_space s'
      else if Ascii.eqb c "/" then br_close s'
      else if Ascii.eqb c ">" then Some (replaceBr s')
      else None
  end
with br_close (s : string) : option string :=
  match s with
  | EmptyString => None
  | String c s' => if Ascii.eqb c ">" then Some (replaceBr s') else None
  end.

(** [text.replace(/<[^>]*>/g, '')]: a ["<"] is dropped together with
    everything up to the next [">"]; without a [">"] behind it, it
    stays. *)
Fixpoint stripTags (s : string) : string :=
  match s with
  | EmptyString => EmptyString
  | String c s' =>
      if Ascii.eqb c "<" then
        match tag_rest s' with
        | Some rest => rest
        | None => String c (stripTags s')
        end
      else String c (stripTags s')
  end
with tag_rest (s : string) : option string :=
  match s with
  | EmptyString => None
  | String c s' => if Ascii.eqb c ">" then Some (stripTags s') else tag_rest s'
  end.

Definition plainTextBody (htmlBody : string) : string :=
  stripTags (replaceBr htmlBody).






End emailService.

(** * Vocabulary of the properties, sequences of operations, sample data *)

(** ** Time strings and the parsers *)

(** A well-formed time string and its hour and minute: one or two
    digits, a colon, two digits. *)
Inductive TimeString : string -> Z -> Z -> Prop :=
  | TimeString_H (h m1 m2 : ascii) :
      isDigit h = true -> isDigit m1 = true -> isDigit m2 = true ->
      TimeString (String h (String ":" (String m1 (String m2 EmptyString))))
                 (digitValue h) (digitValue m1 * 10 + digitValue m2)
  | TimeString_HH (h1 h2 m1 m2 : ascii) :
      isDigit h1 = true -> isDigit h2 = true ->
      isDigit m1 = true -> isDigit m2 = true ->
      TimeString
        (String h1 (String h2 (String ":" (String m1 (String m2 EmptyString)))))
        (digitValue h1 * 10 + digitValue h2)
        (digitValue m1 * 10 + digitValue m2).

(** What the specification asks of a time parser whose marker of an
    invalid time is [invalid]. *)
Definition rejectsInvalid (parse : string -> number) (invalid : number) : Prop :=
  forall s,
    (forall h m, TimeString s h m -> ~ (0 <= h <= 23 /\ 0 <= m <= 59)) ->
    parse s = invalid.

(** ... and on a well-formed time of the day. *)
Definition acceptsValid (parse : string -> number) : Prop :=
  forall s h m,
    TimeString s h m -> 0 <= h <= 23 -> 0 <= m <= 59 ->
    parse s = Int (h * 60 + m).

(** A run of 310 nines, above every double as an integer, and a time
    made of two such runs, the second one negated. *)
Definition nines : string := string_of_list_ascii (replicate 310 "9"%char).

Definition overflowingTime : string :=
  String.append nines (String.append ":-" nines).

(** ** Windows and the conflict scan *)

(** Two windows strictly overlap: all four times are times of the day
    and each window starts before the other ends. *)
Definition windowsOverlap (a b : Booking.data) : Prop :=
  exists a1 a2 b1 b2,
    App.timeToMinutes (Booking.startTime a) = Int a1
    /\ App.timeToMinutes (Booking.endTime a) = Int a2
    /\ App.timeToMinutes (Booking.startTime b) = Int b1
    /\ App.timeToMinutes (Booking.endTime b) = Int b2
    /\ a1 < b2 /\ b1 < a2.

(** What the scan of [approveBooking] finds among the bookings the query
    returned. *)
Definition scanFinds (e : Env) (st : Store) (booking : Booking.t) : Prop :=
  exists c,
    c ∈ getExistingBookingsForListing e (bookings st)
          (Booking.listingId (Booking.fields booking))
          (Booking.date (Booking.fields booking))
    /\ Booking.status (Booking.fields c) = confirmed
    /\ windowsOverlap (Booking.fields booking) (Booking.fields c).

(** A confirmed booking of the store on the listing and date of
    [booking] whose window overlaps the requested one. *)
Definition confirmedOverlap (st : Store) (booking : Booking.t)
    (k : string) (d : Booking.data) : Prop :=
  bookings st !! k = Some d
  /\ Booking.listingId d = Booking.listingId (Booking.fields booking)
  /\ Booking.date d = Booking.date (Booking.fields booking)
  /\ Booking.status d = confirmed
  /\ windowsOverlap (Booking.fields booking) d.

Definition approvalConflict : Outcome :=
  mkOutcome "Approval failed: Conflicts with an existing confirmed booking."
            error false.

Definition approvalFailed : Outcome :=
  mkOutcome "Failed to approve booking." error false.

Definition approvalDone : Outcome :=
  mkOutcome "Booking approved and confirmed!" success false.

(** ** A worked scenario: listing 1 of the sample data, two requests *)

Definition owner1 : User := mkUser "user-1" "Alex Doe" "alex.doe@example.com".
Definition driver2 : User := mkUser "user-2" "Sam Roe" "sam.roe@example.com".
Definition driver3 : User := mkUser "user-3" "Kim Poe" "kim.poe@example.com".

(** The form of listing 1 with a given date and window. *)
Definition listing1_as (date startTime endTime : string) : Listing.input :=
  Listing.mkInput "123 Main St" "Metropolis" "NY" "10001" "USA" 5
                  date startTime endTime "owner1@example.com"
                  "Secure, covered parking spot.".

Definition listing1_input : Listing.input :=
  listing1_as "2024-09-20" "09:00" "17:00".

Definition listing1 : Listing.t :=
  Listing.mk "1" (Listing.mkData "user-1" listing1_input).

(** A world in which every call succeeds and [addDoc] assigns [i]. *)
Definition calm (i : string) : Env := mkEnv true (λ _, true) true i 0.

(** A world in which only the queries fail. *)
Definition blind (i : string) : Env := mkEnv false (λ _, true) true i 0.

Definition store0 : Store := mkStore ∅ {[ "1" := Listing.fields listing1 ]}.

(** A booking on listing 1 as [requestBooking] writes it. *)
Definition bookingOn1 (i : string) (u : User) (startTime endTime : string)
    (s : Status) : Booking.t :=
  Booking.mk i
    (Booking.mkData "1" (user_id u) (user_name u) (user_email u) "user-1"
       "owner1@example.com" "123 Main St, Metropolis, NY 10001" "2024-09-20"
       startTime endTime 5 s (Some 0)).

(** Request A 10:00-12:00, approve A, request B 11:00-13:00. *)
Definition store_A_requested : Store :=
  (App.requestBooking (calm "A") (Some driver2) store0 listing1 "10:00" "12:00").1.
Definition store_A_confirmed : Store :=
  (App.approveBooking (calm "") store_A_requested
     (bookingOn1 "A" driver2 "10:00" "12:00" pending)).1.
Definition store_AB : Store :=
  (App.requestBooking (calm "B") (Some driver3) store_A_confirmed listing1
     "11:00" "13:00").1.

(** ** Approval and the current status *)

Definition store_A_denied : Store :=
  (App.denyBooking (calm "") store_A_requested
     (bookingOn1 "A" driver2 "10:00" "12:00" pending)).1.

(** ** Deletion *)

Definition bookingDeleted : Outcome :=
  mkOutcome "Booking permanently deleted." success false.

(** ** Sequences of operations *)

Inductive Op : Type :=
  | RequestBooking (currentUser : option User) (listing : Listing.t)
                   (startTime endTime : string)
  | ApproveBooking (booking : Booking.t)
  | DenyBooking (booking : Booking.t)
  | CancelBookingByUser (currentUser : option User) (booking : Booking.t)
  | CancelBookingByOwner (booking : Booking.t)
  | DeleteBooking (currentUser : option User) (bookingId : string)
  | AddListing (currentUser : option User) (listingData : Listing.input)
  | UpdateListing (currentUser : option User) (listingId : string)
                  (listingData : Listing.input).

(** The store after one operation in the world [e]. *)
Definition run (e : Env) (op : Op) (st : Store) : Store :=
  match op with
  | RequestBooking u l s t => (App.requestBooking e u st l s t).1
  | ApproveBooking b => (App.approveBooking e st b).1
  | DenyBooking b => (App.denyBooking e st b).1
  | CancelBookingByUser u b => (App.cancelBookingByUser e u st b).1
  | CancelBookingByOwner b => (App.cancelBookingByOwner e st b).1
  | DeleteBooking u k => (App.deleteBooking e u st k).1
  | AddListing u l => (App.addListing e u st l).1
  | UpdateListing u k l => (App.updateListing e u st k l).1
  end.

Fixpoint runAll (tr : list (Env * Op)) (st : Store) : Store :=
  match tr with
  | [] => st
  | (e, op) :: tr' => runAll tr' (run e op st)
  end.

(** A [Booking] passed to an operation is one the store handed out: if
    its document still exists, the two differ at most in the status. *)
Definition snapshot (st : Store) (b : Booking.t) : Prop :=
  match bookings st !! Booking.id b with
  | Some d => Booking.with_status (Booking.status d) (Booking.fields b) = d
  | None => True
  end.

(** What the surroundings guarantee of one step: [addDoc] assigns an
    unused id, and the bookings passed in are snapshots. *)
Definition admissible (st : Store) (e : Env) (op : Op) : Prop :=
  match op with
  | RequestBooking _ _ _ _ => bookings st !! newId e = None
  | AddListing _ _ => listings st !! newId e = None
  | ApproveBooking b | DenyBooking b | CancelBookingByUser _ b
  | CancelBookingByOwner b => snapshot st b
  | DeleteBooking _ _ | UpdateListing _ _ _ => True
  end.

Fixpoint admissibleAll (st : Store) (tr : list (Env * Op)) : Prop :=
  match tr with
  | [] => True
  | (e, op) :: tr' => admissible st e op /\ admissibleAll (run e op st) tr'
  end.






(** ** The cascade of [updateListing] *)

Definition listingUpdated : Outcome :=
  mkOutcome "Listing updated successfully!" success false.

(** Request N 9:30-11:00 on listing 1 and approve it. *)
Definition store_N : Store :=
  (App.approveBooking (calm "")
     (App.requestBooking (calm "N") (Some driver2) store0 listing1
        "9:30" "11:00").1
     (bookingOn1 "N" driver2 "9:30" "11:00" pending)).1.

(** ** Duplicate listings *)

Definition listingAdded : Outcome :=
  mkOutcome "Your driveway has been listed successfully!" success false.

Definition listingDuplicate : Outcome :=
  mkOutcome "A listing with this address and overlapping times already exists."
            error true.

(** The spot of listing 1 offered from 9:00 to 11:00, and from 1:00 to
    3:00. *)
Definition store_9_11 : Store :=
  (App.addListing (calm "L9") (Some owner1) (mkStore ∅ ∅)
     (listing1_as "2024-09-20" "9:00" "11:00")).1.

Definition store_1_3 : Store :=
  (App.addListing (calm "L1") (Some owner1) (mkStore ∅ ∅)
     (listing1_as "2024-09-20" "1:00" "3:00")).1.

(** ** What the two string comparisons do on zero-padded times *)

(** A zero-padded time of the day, [HH:MM], and its minute count. *)
Inductive PaddedTime : string -> Z -> Prop :=
  | PaddedTime_intro (h1 h2 m1 m2 : ascii) :
      isDigit h1 = true -> isDigit h2 = true ->
      isDigit m1 = true -> isDigit m2 = true ->
      digitValue h1 * 10 + digitValue h2 <= 23 ->
      digitValue m1 * 10 + digitValue m2 <= 59 ->
      PaddedTime
        (String h1 (String h2 (String ":" (String m1 (String m2 EmptyString)))))
        ((digitValue h1 * 10 + digitValue h2) * 60
         + (digitValue m1 * 10 + digitValue m2)).

(** The status test of the loop of [updateListing]. *)
Definition isActive (d : Booking.data) : bool :=
  bool_decide (Booking.status d = confirmed)
  || bool_decide (Booking.status d = pending).

(** The same address, city, zip code and date. *)
Definition sameSpotAndDay (d l : Listing.data) : Prop :=
  Listing.address (Listing.details d) = Listing.address (Listing.details l)
  /\ Listing.city (Listing.details d) = Listing.city (Listing.details l)
  /\ Listing.zipCode (Listing.details d) = Listing.zipCode (Listing.details l)
  /\ Listing.date (Listing.details d) = Listing.date (Listing.details l).

Definition listingFailed : Outcome :=
  mkOutcome "Failed to list your driveway. Please try again." error true.

(** ** Further vocabulary: what one step does to one document *)

(** The document [requestBooking] writes for a listing, a user and a
    window in the world [e]. *)
Definition requestedBooking (e : Env) (u : User) (listing : Listing.t)
    (startTime endTime : string) : Booking.data :=
  let l := Listing.details (Listing.fields listing) in
  Booking.mkData (Listing.id listing) (user_id u) (user_name u) (user_email u)
    (Listing.ownerId (Listing.fields listing)) (Listing.contactEmail l)
    (App.fullLocation l) (Listing.date l) startTime endTime (Listing.rate l)
    pending (Some (now e)).

(** [d] is the document the step [op] has just created under [k]. *)
Definition justRequested (e : Env) (op : Op) (k : string) (d : Booking.data)
    : Prop :=
  exists u listing startTime endTime a b,
    op = RequestBooking (Some u) listing startTime endTime
    /\ k = newId e
    /\ App.timeToMinutes startTime = Int a
    /\ App.timeToMinutes endTime = Int b
    /\ d = requestedBooking e u listing startTime endTime.

(** Both times of every stored booking are times of the day. *)
Definition validTimes (db : gmap string Booking.data) : Prop :=
  forall k d,
    db !! k = Some d ->
    exists a b,
      App.timeToMinutes (Booking.startTime d) = Int a
      /\ App.timeToMinutes (Booking.endTime d) = Int b
      /\ 0 <= a <= 1439 /\ 0 <= b <= 1439.

(** The step does not delete the booking [k]. *)
Definition keeps (k : string) (eo : Env * Op) : Prop :=
  forall u, eo.2 <> DeleteBooking u k.

(** The step is not a request to which [addDoc] assigns the id [k]. *)
Definition notReassigned (k : string) (eo : Env * Op) : Prop :=
  match eo.2 with
  | RequestBooking _ _ _ _ => newId eo.1 <> k
  | _ => True
  end.

(** The store holds no pending booking under [k]. *)
Definition notPending (db : gmap string Booking.data) (k : string) : Prop :=
  forall d, db !! k = Some d -> Booking.status d <> pending.

(** The requested window passes the validation of the modal: both times
    are times of the day, the start lies before the end, and the window
    lies within each bound of the listing that is itself a time of the
    day. *)
Definition windowAccepted (listing : Listing.t) (startTime endTime : string)
    : Prop :=
  exists a b,
    ConfirmationModal.timeToMinutes startTime = Int a
    /\ ConfirmationModal.timeToMinutes endTime = Int b
    /\ a < b
    /\ (forall ls,
           ConfirmationModal.timeToMinutes
             (Listing.startTime (Listing.details (Listing.fields listing))) = Int ls ->
           ls <= a)
    /\ (forall le,
           ConfirmationModal.timeToMinutes
             (Listing.endTime (Listing.details (Listing.fields listing))) = Int le ->
           b <= le).

(** No ["<"] of the text has a [">"] behind it. *)
Fixpoint hasGt (s : string) : bool :=
  match s with
  | EmptyString => false
  | String c s' => Ascii.eqb c ">" || hasGt s'
  end.

Fixpoint tagFree (s : string) : bool :=
  match s with
  | EmptyString => true
  | String c s' => (negb (Ascii.eqb c "<") || negb (hasGt s')) && tagFree s'
  end.






(** ** Further vocabulary: outcomes, the listing form *)

Definition statusFailed (o : Outcome) : Prop :=
  toastType o = error /\ thrown o = false.

Definition listingUpdateFailed : Outcome :=
  mkOutcome "Failed to update listing. Please try again." error true.

Definition modalUnexpected : string :=
  "An unexpected error occurred. Please try again.".

(** Every required field of the form holds some text. *)
Definition requiredFilled (f : ListingForm.FormState) : Prop :=
  ListingForm.address f <> "" /\ ListingForm.city f <> ""
  /\ ListingForm.state f <> "" /\ ListingForm.zipCode f <> ""
  /\ ListingForm.country f <> "" /\ ListingForm.rate f <> ""
  /\ ListingForm.date f <> "" /\ ListingForm.startTime f <> ""
  /\ ListingForm.endTime f <> "" /\ ListingForm.contactEmail f <> "".

(** The listing the form submits for its fields and the parsed rate. *)
Definition listingOfForm (f : ListingForm.FormState) (parsedRate : Q)
    : Listing.input :=
  Listing.mkInput (ListingForm.address f) (ListingForm.city f)
    (ListingForm.state f) (ListingForm.zipCode f) (ListingForm.country f)
    parsedRate (ListingForm.date f) (ListingForm.startTime f)
    (ListingForm.endTime f) (ListingForm.contactEmail f)
    (ListingForm.description f).

Definition sampleForm (startTime endTime : string) : ListingForm.FormState :=
  ListingForm.mkFormState "123 Main St" "Metropolis" "NY" "10001" "USA" ""
    "5" "2024-09-20" startTime endTime "owner1@example.com".

(** * Properties *)

(** ** Time strings and the parsers *)

Lemma isDigit_not_colon (c : ascii) : isDigit c = true -> Ascii.eqb c ":" = false.
Proof.
  intros Hd. destruct (Ascii.eqb_spec c ":") as [-> | _]; [| reflexivity].
  discriminate Hd.
Qed.

Lemma digitValue_range (c : ascii) : isDigit c = true -> 0 <= digitValue c <= 9.
Proof.
  unfold isDigit, digitValue. intros Hd.
  apply andb_prop in Hd as [H1 H2].
  apply Nat.leb_le in H1. apply Nat.leb_le in H2. lia.
Qed.

Lemma TimeString_nonneg (s : string) (h m : Z) :
  TimeString s h m -> 0 <= h <= 99 /\ 0 <= m <= 99.
Proof.
  destruct 1;
    repeat match goal with
           | H : isDigit _ = true |- _ => apply digitValue_range in H
           end; lia.
Qed.

Lemma timePattern_TimeString (s : string) :
  timePattern s = true <-> exists h m, TimeString s h m.
Proof.
  split.
  - unfold timePattern.
    destruct s as [| c1 [| c2 [| c3 [| c4 [| c5 [| c6 s]]]]]]; simpl;
      try discriminate.
    + rewrite !andb_true_iff. intros [[[Hh Hc] H1] H2].
      apply Ascii.eqb_eq in Hc. subst c2.
      eexists _, _. by apply TimeString_H.
    + rewrite !andb_true_iff. intros [[[[Hh1 Hh2] Hc] H1] H2].
      apply Ascii.eqb_eq in Hc. subst c3.
      eexists _, _. by apply TimeString_HH.
  - intros (h & m & Hs). destruct Hs; unfold timePattern; simpl;
      repeat match goal with
             | H : isDigit _ = true |- _ => rewrite H; clear H
             end; reflexivity.
Qed.

(** The pattern-and-range parser on a well-formed string. *)
Lemma timeToMinutes_checked_TimeString (s : string) (h m : Z) :
  TimeString s h m ->
  timeToMinutes_checked s
  = if (h <=? 23) && (m <=? 59) then Int (h * 60 + m) else NaN.
Proof.
  intros Hs.
  assert (Hp : timePattern s = true) by (apply timePattern_TimeString; eauto).
  pose proof (TimeString_nonneg _ _ _ Hs) as Hr.
  unfold timeToMinutes_checked. rewrite Hp.
  destruct Hs as [c m1 m2 Hc H1 H2 | c1 c2 m1 m2 Hc1 Hc2 H1 H2]; simpl.
  - rewrite !isDigit_not_colon by assumption. simpl.
    unfold Number; simpl. rewrite Hc, H1, H2.
    replace (0 * 10 + digitValue c) with (digitValue c) by lia.
    replace ((0 * 10 + digitValue m1) * 10 + digitValue m2)
      with (digitValue m1 * 10 + digitValue m2) by lia.
    set (hh := digitValue c) in *. set (mm := digitValue m1 * 10 + digitValue m2) in *.
    destruct (Z.leb_spec hh 23), (Z.leb_spec mm 59),
             (Z.ltb_spec hh 0), (Z.ltb_spec mm 0),
             (Z.gtb_spec hh 23), (Z.gtb_spec mm 59); simpl; try reflexivity; lia.
  - rewrite !isDigit_not_colon by assumption. simpl.
    unfold Number; simpl. rewrite Hc1, Hc2, H1, H2.
    replace ((0 * 10 + digitValue c1) * 10 + digitValue c2)
      with (digitValue c1 * 10 + digitValue c2) by lia.
    replace ((0 * 10 + digitValue m1) * 10 + digitValue m2)
      with (digitValue m1 * 10 + digitValue m2) by lia.
    set (hh := digitValue c1 * 10 + digitValue c2) in *.
    set (mm := digitValue m1 * 10 + digitValue m2) in *.
    destruct (Z.leb_spec hh 23), (Z.leb_spec mm 59),
             (Z.ltb_spec hh 0), (Z.ltb_spec mm 0),
             (Z.gtb_spec hh 23), (Z.gtb_spec mm 59); simpl; try reflexivity; lia.
Qed.

(** ... and on any other string. *)
Lemma timeToMinutes_checked_malformed (s : string) :
  (forall h m, ~ TimeString s h m) -> timeToMinutes_checked s = NaN.
Proof.
  intros Hn. unfold timeToMinutes_checked.
  destruct (timePattern s) eqn:Hp.
  - apply timePattern_TimeString in Hp as (h & m & Hs). destruct (Hn _ _ Hs).
  - by rewrite orb_true_r.
Qed.

(** The result of the pattern-and-range parser is [NaN] or a minute of
    the day. *)
Lemma timeToMinutes_checked_Int (s : string) (n : Z) :
  timeToMinutes_checked s = Int n ->
  exists h m, TimeString s h m /\ 0 <= h <= 23 /\ 0 <= m <= 59 /\ n = h * 60 + m.
Proof.
  intros Hn. destruct (timePattern s) eqn:Hp.
  - apply timePattern_TimeString in Hp as (h & m & Hs).
    pose proof (TimeString_nonneg _ _ _ Hs) as Hr.
    rewrite (timeToMinutes_checked_TimeString _ _ _ Hs) in Hn.
    destruct (Z.leb_spec h 23), (Z.leb_spec m 59); simpl in Hn; try discriminate.
    injection Hn as <-. exists h, m. repeat split; try lia; assumption.
  - unfold timeToMinutes_checked in Hn. rewrite Hp, orb_true_r in Hn. discriminate.
Qed.

Lemma isDigit_not_space (c : ascii) : isDigit c = true -> isWhiteSpace c = false.
Proof.
  unfold isDigit, isWhiteSpace. intros Hd.
  apply andb_prop in Hd as [H1 H2].
  apply Nat.leb_le in H1. apply Nat.leb_le in H2.
  repeat (apply orb_false_intro); apply Nat.eqb_neq; lia.
Qed.

Lemma isDigit_not_sign (c : ascii) :
  isDigit c = true -> Ascii.eqb c "-" = false /\ Ascii.eqb c "+" = false.
Proof.
  intros Hd. split.
  - destruct (Ascii.eqb_spec c "-") as [-> | _]; [discriminate Hd | reflexivity].
  - destruct (Ascii.eqb_spec c "+") as [-> | _]; [discriminate Hd | reflexivity].
Qed.

Lemma leadingDigits_digitsValue (s : string) (acc z : Z) :
  digitsValue acc s = Some z -> leadingDigits (Some acc) s = Some z.
Proof.
  revert acc. induction s as [| c s IH]; intros acc; simpl.
  - trivial.
  - destruct (isDigit c); [| discriminate]. apply IH.
Qed.

(** The rounding at its landmarks: the first integer that is not a
    double, the largest double, and the first integer that rounds to an
    infinity. *)
Example toNumber_landmarks :
  toNumber 9007199254740993 = Int 9007199254740992
  /\ toNumber (- 9007199254740995) = Int (- 9007199254740996)
  /\ toNumber (2 ^ 1024 - 2 ^ 971) = Int (2 ^ 1024 - 2 ^ 971)
  /\ toNumber (2 ^ 1024 - 2 ^ 970 - 1) = Int (2 ^ 1024 - 2 ^ 971)
  /\ toNumber (2 ^ 1024 - 2 ^ 970) = Infinity false
  /\ toNumber (- 2 ^ 1024) = Infinity true.
Proof. vm_compute. repeat split; reflexivity. Qed.

(** Below [2^53] every integer is a double. *)
Lemma toNumber_exact (z : Z) : Z.abs z < 2 ^ 53 -> toNumber z = Int z.
Proof.
  intros Hz. unfold toNumber.
  assert (Hl : Z.log2 (Z.abs z) < 53).
  { destruct (Z.eq_dec (Z.abs z) 0) as [-> | Hn]; [reflexivity |].
    apply Z.log2_lt_pow2; lia. }
  destruct (Z.leb_spec (Z.log2 (Z.abs z) - 52) 0); [reflexivity | lia].
Qed.

(** On a non-empty string of digits [parseInt] answers the double
    nearest to their value. *)
Lemma parseInt_digits (s : string) (z : Z) :
  s <> EmptyString -> digitsValue 0 s = Some z -> parseInt s = toNumber z.
Proof.
  destruct s as [| c s]; [congruence |]. intros _. simpl.
  destruct (isDigit c) eqn:Hd; [| discriminate].
  intros Hv. unfold parseInt. simpl.
  rewrite (isDigit_not_space _ Hd).
  destruct (isDigit_not_sign _ Hd) as [-> ->]. simpl. rewrite Hd.
  rewrite (leadingDigits_digitsValue _ _ _ Hv). f_equal. lia.
Qed.

(** The lenient parser of the listing form on a well-formed string:
    hour and minute are combined whatever their range. *)
Lemma ListingForm_timeToMinutes_exact (s p0 p1 : string) (h m : Z) :
  split_colon s = [p0; p1] -> parseInt p0 = Int h -> parseInt p1 = Int m ->
  Z.abs h < 2 ^ 46 -> Z.abs m < 2 ^ 46 ->
  ListingForm.timeToMinutes s = Int (h * 60 + m).
Proof.
  intros Hp H0 H1 Hh Hm. unfold ListingForm.timeToMinutes.
  rewrite Hp, H0, H1. cbn [isNaN negb andb num_mul].
  rewrite (toNumber_exact (h * 60)) by lia. cbn [num_add].
  apply toNumber_exact. lia.
Qed.

Lemma ListingForm_timeToMinutes_TimeString (s : string) (h m : Z) :
  TimeString s h m -> ListingForm.timeToMinutes s = Int (h * 60 + m).
Proof.
  intros Hs. pose proof (TimeString_nonneg _ _ _ Hs) as [Hh Hm].
  destruct Hs as [c m1 m2 Hc H1 H2 | c1 c2 m1 m2 Hc1 Hc2 H1 H2].
  - apply (ListingForm_timeToMinutes_exact _ (String c EmptyString)
             (String m1 (String m2 EmptyString))); try lia.
    + simpl. by rewrite !isDigit_not_colon by assumption.
    + rewrite (parseInt_digits _ (digitValue c));
        [apply toNumber_exact; lia | discriminate
        | simpl; rewrite Hc; f_equal; lia].
    + rewrite (parseInt_digits _ (digitValue m1 * 10 + digitValue m2));
        [apply toNumber_exact; lia | discriminate
        | simpl; rewrite H1, H2; f_equal; lia].
  - apply (ListingForm_timeToMinutes_exact _ (String c1 (String c2 EmptyString))
             (String m1 (String m2 EmptyString))); try lia.
    + simpl. by rewrite !isDigit_not_colon by assumption.
    + rewrite (parseInt_digits _ (digitValue c1 * 10 + digitValue c2));
        [apply toNumber_exact; lia | discriminate
        | simpl; rewrite Hc1, Hc2; f_equal; lia].
    + rewrite (parseInt_digits _ (digitValue m1 * 10 + digitValue m2));
        [apply toNumber_exact; lia | discriminate
        | simpl; rewrite H1, H2; f_equal; lia].
Qed.

(** The marker of the listing form's parser. *)
Lemma ListingForm_timeToMinutes_marker (s : string) :
  (forall p0 p1,
      split_colon s = [p0; p1] -> parseInt p0 = NaN \/ parseInt p1 = NaN) ->
  ListingForm.timeToMinutes s = Int (-1).
Proof.
  intros Hn. unfold ListingForm.timeToMinutes.
  destruct (split_colon s) as [| p0 [| p1 [| p2 ps]]]; try reflexivity.
  destruct (Hn p0 p1 eq_refl) as [-> | ->]; [reflexivity |].
  by rewrite andb_false_r.
Qed.

(** Two runs of 310 digits, the second one negated, read as [Infinity]
    and [-Infinity]; their combination is [NaN]. *)
Lemma ListingForm_timeToMinutes_overflow :
  parseInt nines = Infinity false
  /\ parseInt (String "-" nines) = Infinity true
  /\ ListingForm.timeToMinutes overflowingTime = NaN.
Proof. vm_compute. repeat split; reflexivity. Qed.

(** The same run is infinite for an engine that reads the digits behind
    the 20th as zeros. *)
Example nines_first_20_digits :
  toNumber ((10 ^ 20 - 1) * 10 ^ 290) = Infinity false.
Proof. vm_compute. reflexivity. Qed.

Lemma TimeString_2500 : TimeString "25:00" 25 0.
Proof. exact (TimeString_HH "2" "5" "0" "0" eq_refl eq_refl eq_refl eq_refl). Qed.

Lemma TimeString_functional (s : string) (h m h' m' : Z) :
  TimeString s h m -> TimeString s h' m' -> h = h' /\ m = m'.
Proof.
  intros H1 H2. destruct H1; inversion H2; subst; auto.
Qed.

(** C7, as stated, fails: the parser of [ListingForm.tsx] turns the
    string "25:00", whose hour is outside 0..23, into the minute count
    1500, so neither [-1] nor [NaN] is a marker it returns on every
    invalid time. *)
Lemma ListingForm_timeToMinutes_accepts_hour_25 :
  ListingForm.timeToMinutes "25:00" = Int 1500
  /\ ~ rejectsInvalid ListingForm.timeToMinutes (Int (-1))
  /\ ~ rejectsInvalid ListingForm.timeToMinutes NaN.
Proof.
  assert (Hbad : forall h m, TimeString "25:00" h m ->
                             ~ (0 <= h <= 23 /\ 0 <= m <= 59)).
  { intros h m Hs. destruct (TimeString_functional _ _ _ _ _ Hs TimeString_2500).
    lia. }
  split; [reflexivity |].
  split; intros Hr; specialize (Hr "25:00" Hbad); discriminate Hr.
Qed.

Lemma timeToMinutes_checked_contract :
  rejectsInvalid timeToMinutes_checked NaN /\ acceptsValid timeToMinutes_checked.
Proof.
  split.
  - intros s Hbad. destruct (timePattern s) eqn:Hp.
    + apply timePattern_TimeString in Hp as (h & m & Hs).
      pose proof (TimeString_nonneg _ _ _ Hs) as Hr.
      rewrite (timeToMinutes_checked_TimeString _ _ _ Hs).
      destruct (Z.leb_spec h 23), (Z.leb_spec m 59); simpl; try reflexivity.
      destruct (Hbad h m Hs). lia.
    + apply timeToMinutes_checked_malformed. intros h m Hs.
      assert (timePattern s = true) by (apply timePattern_TimeString; eauto).
      congruence.
  - intros s h m Hs Hh Hm. rewrite (timeToMinutes_checked_TimeString _ _ _ Hs).
    destruct (Z.leb_spec h 23), (Z.leb_spec m 59); simpl; try reflexivity; lia.
Qed.

(** C7, amended: the parsers of [App.tsx] and [ConfirmationModal.tsx]
    answer [NaN] on every string that is not one or two digits, a colon
    and two digits, and on every such string whose hour exceeds 23 or
    whose minute exceeds 59, and [hours * 60 + minutes] otherwise. The
    parser of [ListingForm.tsx] answers [hours * 60 + minutes] on every
    well-formed string, in range or not, and more generally whenever the
    string splits at its colon into two pieces that [parseInt] reads as
    integers below [2^46] in size; it answers [-1] when the string does
    not split at colons into two pieces that both start with an integer.
    Its arithmetic is that of doubles: a run of 310 digits reads as an
    infinity, and on such an hour with such a minute of the other sign
    the answer is [NaN], which is not the marker. *)
Theorem time_parsers_spec :
  (rejectsInvalid App.timeToMinutes NaN /\ acceptsValid App.timeToMinutes)
  /\ (rejectsInvalid ConfirmationModal.timeToMinutes NaN
      /\ acceptsValid ConfirmationModal.timeToMinutes)
  /\ (forall s h m,
         TimeString s h m -> ListingForm.timeToMinutes s = Int (h * 60 + m))
  /\ (forall s p0 p1 h m,
         split_colon s = [p0; p1] ->
         parseInt p0 = Int h -> parseInt p1 = Int m ->
         Z.abs h < 2 ^ 46 -> Z.abs m < 2 ^ 46 ->
         ListingForm.timeToMinutes s = Int (h * 60 + m))
  /\ (forall s,
         (forall p0 p1,
             split_colon s = [p0; p1] ->
             parseInt p0 = NaN \/ parseInt p1 = NaN) ->
         ListingForm.timeToMinutes s = Int (-1))
  /\ (split_colon overflowingTime = [nines; String "-" nines]
      /\ parseInt nines = Infinity false
      /\ parseInt (String "-" nines) = Infinity true
      /\ ListingForm.timeToMinutes overflowingTime = NaN).
Proof.
  split; [| split; [| split; [| split; [| split]]]].
  - exact timeToMinutes_checked_contract.
  - exact timeToMinutes_checked_contract.
  - exact ListingForm_timeToMinutes_TimeString.
  - exact ListingForm_timeToMinutes_exact.
  - exact ListingForm_timeToMinutes_marker.
  - split; [by vm_compute | exact ListingForm_timeToMinutes_overflow].
Qed.

Lemma time_parsers_spec_witness :
  App.timeToMinutes "25:30" = NaN
  /\ App.timeToMinutes "09:30" = Int 570
  /\ ListingForm.timeToMinutes "25:30" = Int 1530.
Proof.
  destruct time_parsers_spec as ([Hrej Hacc] & _ & Hform & _).
  split; [| split].
  - apply Hrej. intros h m Hs.
    destruct (TimeString_functional _ _ _ _ _ Hs
                (TimeString_HH "2" "5" "3" "0" eq_refl eq_refl eq_refl eq_refl
                 : TimeString "25:30" 25 30)).
    lia.
  - exact (Hacc "09:30" 9 30
             (TimeString_HH "0" "9" "3" "0" eq_refl eq_refl eq_refl eq_refl)
             ltac:(lia) ltac:(lia)).
  - exact (Hform "25:30" 25 30
             (TimeString_HH "2" "5" "3" "0" eq_refl eq_refl eq_refl eq_refl)).
Defined.

(** ** The overlap test of the approval *)

(** The pattern-and-range parser never answers an infinity. *)
Lemma timeToMinutes_checked_finite (s : string) (negative : bool) :
  timeToMinutes_checked s <> Infinity negative.
Proof. unfold timeToMinutes_checked. repeat case_match; discriminate. Qed.

(** Case analysis on an answer of the pattern-and-range parser. *)
Tactic Notation "minutes_cases" constr(t) "as" ident(a) "eqn" ":" ident(H) :=
  destruct t as [| a | ?] eqn:H;
  [ | | exfalso; exact (timeToMinutes_checked_finite _ _ H)].

Lemma intervalsOverlap_true (x y z w : number) :
  (forall n, x <> Infinity n) -> (forall n, y <> Infinity n) ->
  (forall n, z <> Infinity n) -> (forall n, w <> Infinity n) ->
  App.intervalsOverlap x y z w = true
  <-> exists a b c d,
        x = Int a /\ y = Int b /\ z = Int c /\ w = Int d /\ a < d /\ c < b.
Proof.
  intros Hx Hy Hz Hw.
  unfold App.intervalsOverlap, num_gt, num_lt. split.
  - destruct x as [| a | n]; [| | destruct (Hx n eq_refl)];
      (destruct y as [| b | n]; [| | destruct (Hy n eq_refl)]);
      (destruct z as [| c | n]; [| | destruct (Hz n eq_refl)]);
      (destruct w as [| d | n]; [| | destruct (Hw n eq_refl)]); simpl;
      try discriminate.
    all: intros H; apply andb_prop in H as [H1 H2]; try discriminate.
    apply Z.ltb_lt in H1. apply Z.ltb_lt in H2.
    exists a, b, c, d. auto 10.
  - intros (a & b & c & d & -> & -> & -> & -> & H1 & H2). simpl.
    apply andb_true_intro. split; apply Z.ltb_lt; assumption.
Qed.

(** C8: on four minute counts the overlap test of [approveBooking] holds
    exactly when [aStart < bEnd] and [bStart < aEnd]; it fails as soon as
    one of the four is [NaN]; intervals that only touch do not overlap,
    as 09:00-12:00 and 12:00-15:00; and on the time strings of a request
    and of a confirmed booking the callback of the scan holds exactly
    when all four strings parse and the parsed windows overlap. *)
Theorem intervalsOverlap_strict :
  (forall a b c d,
      App.intervalsOverlap (Int a) (Int b) (Int c) (Int d) = true
      <-> a < d /\ c < b)
  /\ (forall x y z,
         App.intervalsOverlap NaN x y z = false
         /\ App.intervalsOverlap x NaN y z = false
         /\ App.intervalsOverlap x y NaN z = false
         /\ App.intervalsOverlap x y z NaN = false)
  /\ (forall a b d,
         App.intervalsOverlap (Int a) (Int b) (Int b) (Int d) = false)
  /\ App.intervalsOverlap (App.timeToMinutes "09:00") (App.timeToMinutes "12:00")
                          (App.timeToMinutes "12:00") (App.timeToMinutes "15:00")
     = false
  /\ (forall aStart aEnd (confirmedBooking : Booking.t),
         App.conflictsWith (App.timeToMinutes aStart) (App.timeToMinutes aEnd)
                           confirmedBooking = true
         <-> exists a b c d,
               App.timeToMinutes aStart = Int a
               /\ App.timeToMinutes aEnd = Int b
               /\ App.timeToMinutes
                    (Booking.startTime (Booking.fields confirmedBooking)) = Int c
               /\ App.timeToMinutes
                    (Booking.endTime (Booking.fields confirmedBooking)) = Int d
               /\ a < d /\ c < b).
Proof.
  split; [| split; [| split; [| split]]].
  - intros a b c d. rewrite intervalsOverlap_true by discriminate. split.
    + intros (a' & b' & c' & d' & [= ->] & [= ->] & [= ->] & [= ->] & H). exact H.
    + intros [H1 H2]. exists a, b, c, d. auto 10.
  - intros x y z. unfold App.intervalsOverlap, num_gt, num_lt.
    destruct x, y, z; simpl; rewrite ?andb_false_r; auto.
  - intros a b d. unfold App.intervalsOverlap, num_gt, num_lt. simpl.
    rewrite Z.ltb_irrefl. apply andb_false_r.
  - reflexivity.
  - intros aStart aEnd c. unfold App.conflictsWith.
    apply intervalsOverlap_true; apply timeToMinutes_checked_finite.
Qed.

(** ** The store queries *)

Lemma elem_of_getExistingBookingsForListing (e : Env)
    (db : gmap string Booking.data) (lid dt : string) (bk : Booking.t) :
  queryOk e = true ->
  bk ∈ getExistingBookingsForListing e db lid dt
  <-> db !! Booking.id bk = Some (Booking.fields bk)
      /\ Booking.listingId (Booking.fields bk) = lid
      /\ Booking.date (Booking.fields bk) = dt.
Proof.
  intros Hq. unfold getExistingBookingsForListing. rewrite Hq.
  rewrite list_elem_of_fmap. split.
  - intros ([k d] & -> & Hin).
    apply elem_of_map_to_list, map_lookup_filter_Some in Hin as [Hl [H1 H2]].
    simpl in *. auto.
  - intros (Hl & H1 & H2). exists (Booking.id bk, Booking.fields bk). split.
    + by destruct bk.
    + apply elem_of_map_to_list, map_lookup_filter_Some. simpl. auto.
Qed.

Lemma getExistingBookingsForListing_failed (e : Env)
    (db : gmap string Booking.data) (lid dt : string) :
  queryOk e = false -> getExistingBookingsForListing e db lid dt = [].
Proof. intros Hq. unfold getExistingBookingsForListing. by rewrite Hq. Qed.

Lemma elem_of_getBookingRequestsForOwner (e : Env)
    (db : gmap string Booking.data) (owner : string) (bk : Booking.t) :
  bk ∈ getBookingRequestsForOwner e db owner ->
  db !! Booking.id bk = Some (Booking.fields bk)
  /\ Booking.ownerId (Booking.fields bk) = owner
  /\ Booking.status (Booking.fields bk) = pending.
Proof.
  unfold getBookingRequestsForOwner. destruct (queryOk e).
  - rewrite list_elem_of_fmap. intros ([k d] & -> & Hin).
    apply elem_of_map_to_list, map_lookup_filter_Some in Hin as [Hl [H1 H2]].
    simpl in *. auto.
  - intros Hin. by apply elem_of_nil in Hin.
Qed.

(** ** Windows and the conflict scan *)


Lemma conflictsWith_windowsOverlap (b c : Booking.t) :
  App.conflictsWith
    (App.timeToMinutes (Booking.startTime (Booking.fields b)))
    (App.timeToMinutes (Booking.endTime (Booking.fields b))) c = true
  <-> windowsOverlap (Booking.fields b) (Booking.fields c).
Proof.
  unfold App.conflictsWith.
  apply intervalsOverlap_true; apply timeToMinutes_checked_finite.
Qed.

Lemma scanFinds_answered (e : Env) (st : Store) (booking : Booking.t) :
  queryOk e = true ->
  scanFinds e st booking <-> exists k d, confirmedOverlap st booking k d.
Proof.
  intros Hq. unfold scanFinds, confirmedOverlap. split.
  - intros (c & Hin & Hs & Ho).
    apply elem_of_getExistingBookingsForListing in Hin as (Hl & H1 & H2); [| done].
    exists (Booking.id c), (Booking.fields c). auto 10.
  - intros (k & d & Hl & H1 & H2 & Hs & Ho).
    exists (Booking.mk k d). simpl. repeat split; try done.
    apply elem_of_getExistingBookingsForListing; [done |]. simpl. auto.
Qed.

Lemma scanFinds_failed (e : Env) (st : Store) (booking : Booking.t) :
  queryOk e = false -> ~ scanFinds e st booking.
Proof.
  intros Hq (c & Hin & _).
  rewrite getExistingBookingsForListing_failed in Hin by done.
  by apply elem_of_nil in Hin.
Qed.

(** The [some] of [approveBooking] in terms of [scanFinds]. *)
Lemma approveBooking_scan (e : Env) (st : Store) (booking : Booking.t) :
  (scanFinds e st booking
   /\ App.approveBooking e st booking = (st, approvalConflict))
  \/ (~ scanFinds e st booking
      /\ App.approveBooking e st booking
         = match updateBookingStatusInFirestore e (bookings st)
                   (Booking.id booking) confirmed with
           | None => (st, approvalFailed)
           | Some db =>
               (mkStore db (listings st),
                if emailOk e then approvalDone else approvalFailed)
           end).
Proof.
  unfold App.approveBooking.
  match goal with
  | |- context [existsb ?f ?l] => destruct (existsb f l) eqn:Hex
  end.
  - left. split; [| reflexivity].
    apply existsb_exists in Hex as (c & Hin & Hc).
    apply filter_In in Hin as [Hin Hs].
    apply bool_decide_eq_true in Hs.
    exists c. split; [by apply list_elem_of_In |]. split; [done |].
    by apply conflictsWith_windowsOverlap.
  - right. split; [| reflexivity].
    intros (c & Hin & Hs & Ho).
    assert (Ht : existsb
                   (App.conflictsWith
                      (App.timeToMinutes (Booking.startTime (Booking.fields booking)))
                      (App.timeToMinutes (Booking.endTime (Booking.fields booking))))
                   (List.filter
                      (λ b, bool_decide (Booking.status (Booking.fields b) = confirmed))
                      (getExistingBookingsForListing e (bookings st)
                         (Booking.listingId (Booking.fields booking))
                         (Booking.date (Booking.fields booking)))) = true).
    { apply existsb_exists. exists c. split.
      - apply filter_In. split; [by apply list_elem_of_In |].
        by apply bool_decide_eq_true.
      - by apply conflictsWith_windowsOverlap. }
    congruence.
Qed.

Lemma updateBookingStatus_ok (e : Env) (db : gmap string Booking.data)
    (k : string) (s : Status) (d : Booking.data) :
  writeOk e k = true -> db !! k = Some d ->
  updateBookingStatusInFirestore e db k s
  = Some (alter (Booking.with_status s) k db).
Proof.
  intros Hw Hl. unfold updateBookingStatusInFirestore. by rewrite Hl, Hw.
Qed.

(** Every status write leaves the collection as it was or changes the
    status of the one document. *)
Lemma updateBookingStatus_cases (e : Env) (db : gmap string Booking.data)
    (k : string) (s : Status) :
  updateBookingStatusInFirestore e db k s = None
  \/ updateBookingStatusInFirestore e db k s
     = Some (alter (Booking.with_status s) k db).
Proof.
  unfold updateBookingStatusInFirestore.
  destruct (db !! k); [| by left]. destruct (writeOk e k); auto.
Qed.

Lemma approveBooking_bookings (e : Env) (st : Store) (booking : Booking.t) :
  bookings (App.approveBooking e st booking).1 = bookings st
  \/ bookings (App.approveBooking e st booking).1
     = alter (Booking.with_status confirmed) (Booking.id booking) (bookings st).
Proof.
  destruct (approveBooking_scan e st booking) as [[_ ->] | [_ ->]]; [by left |].
  destruct (updateBookingStatus_cases e (bookings st) (Booking.id booking) confirmed)
    as [-> | ->]; simpl; auto.
Qed.

(** ** A worked scenario: listing 1 of the sample data, two requests *)

Example store_AB_bookings :
  bookings store_AB
  = {[ "A" := Booking.fields (bookingOn1 "A" driver2 "10:00" "12:00" confirmed);
       "B" := Booking.fields (bookingOn1 "B" driver3 "11:00" "13:00" pending) ]}.
Proof. vm_compute. reflexivity. Qed.

(** The end-to-end scenario of the specification: approving B is
    refused, B stays pending; then B is denied and deleted. *)
Example scenario_end_to_end :
  let bB := bookingOn1 "B" driver3 "11:00" "13:00" pending in
  let r1 := App.approveBooking (calm "") store_AB bB in
  let r2 := App.denyBooking (calm "") r1.1 bB in
  let r3 := App.deleteBooking (calm "") (Some driver3) r2.1 "B" in
  r1 = (store_AB, approvalConflict)
  /\ bookings r2.1 !! "B"
     = Some (Booking.fields (bookingOn1 "B" driver3 "11:00" "13:00" denied))
  /\ bookings r3.1 !! "B" = None
  /\ bookings r3.1 !! "A"
     = Some (Booking.fields (bookingOn1 "A" driver2 "10:00" "12:00" confirmed)).
Proof. vm_compute. repeat split; reflexivity. Qed.

(** ** Approval of a pending booking *)

(** C1, as stated, fails: booking A of the store is confirmed for
    10:00-12:00 and the pending booking B asks for 11:00-13:00 on the
    same listing and date, so that a confirmed booking other than B
    strictly overlaps B's window; yet when the query of the scan is not
    answered, the approval of B is not refused: it ends with the success
    toast, and B is confirmed next to A. *)
Lemma approveBooking_unanswered_scan_confirms :
  let bA := bookingOn1 "A" driver2 "10:00" "12:00" confirmed in
  let bB := bookingOn1 "B" driver3 "11:00" "13:00" pending in
  let r := App.approveBooking (blind "") store_AB bB in
  bookings store_AB !! "B" = Some (Booking.fields bB)
  /\ Booking.status (Booking.fields bB) = pending
  /\ "A" <> Booking.id bB
  /\ confirmedOverlap store_AB bB "A" (Booking.fields bA)
  /\ r.2 = approvalDone
  /\ ~ (r.2 = approvalConflict /\ r.1 = store_AB)
  /\ bookings r.1 !! "B"
     = Some (Booking.fields (bookingOn1 "B" driver3 "11:00" "13:00" confirmed))
  /\ bookings r.1 !! "A" = Some (Booking.fields bA).
Proof.
  intros bA bB r.
  assert (Hr2 : r.2 = approvalDone) by (by vm_compute).
  split; [by vm_compute |]. split; [reflexivity |]. split; [discriminate |].
  split.
  { split; [by vm_compute |]. repeat split.
    exists 660, 780, 600, 720. vm_compute. repeat split. }
  split; [exact Hr2 |]. split.
  { intros [Hc _]. rewrite Hr2 in Hc. discriminate Hc. }
  split; by vm_compute.
Qed.

(** C1, amended: when the query of the scan is answered and [b] is a pending
    booking of the store, [approveBooking] is refused with the conflict
    toast, the store unchanged, exactly when another booking of the store
    is confirmed on the same listing and date with a window that strictly
    overlaps the requested one; otherwise the status write is issued, and
    once it succeeds [b] is confirmed and nothing else has changed.
    After [b] has been approved, the approval of a pending request [b2]
    on the same listing and date whose window overlaps that of [b] is
    refused with the conflict toast and [b2] stays pending. *)
Theorem approveBooking_pending (e : Env) (st : Store) (b : Booking.t) :
  queryOk e = true ->
  bookings st !! Booking.id b = Some (Booking.fields b) ->
  Booking.status (Booking.fields b) = pending ->
  let conflict :=
    exists k d, k <> Booking.id b /\ confirmedOverlap st b k d in
  let r := App.approveBooking e st b in
  ((r.2 = approvalConflict /\ r.1 = st) <-> conflict)
  /\ (~ conflict -> writeOk e (Booking.id b) = true ->
      r.1 = mkStore (<[Booking.id b :=
                         Booking.with_status confirmed (Booking.fields b)]>
                       (bookings st))
                    (listings st)
      /\ r.2 = (if emailOk e then approvalDone else approvalFailed))
  /\ (forall e2 b2,
         queryOk e2 = true ->
         bookings st !! Booking.id b2 = Some (Booking.fields b2) ->
         Booking.status (Booking.fields b2) = pending ->
         Booking.id b2 <> Booking.id b ->
         Booking.listingId (Booking.fields b2) = Booking.listingId (Booking.fields b) ->
         Booking.date (Booking.fields b2) = Booking.date (Booking.fields b) ->
         windowsOverlap (Booking.fields b2) (Booking.fields b) ->
         bookings r.1 !! Booking.id b
           = Some (Booking.with_status confirmed (Booking.fields b)) ->
         App.approveBooking e2 r.1 b2 = (r.1, approvalConflict)
         /\ bookings r.1 !! Booking.id b2 = Some (Booking.fields b2)).
Proof.
  intros Hq Hb Hp conflict r.
  assert (Hconf : scanFinds e st b <-> conflict).
  { rewrite scanFinds_answered by done. unfold conflict. split.
    - intros (k & d & Hc). exists k, d. split; [| done].
      intros ->. destruct Hc as (Hl & _ & _ & Hs & _). congruence.
    - intros (k & d & _ & Hc). eauto. }
  split; [| split].
  - subst r. destruct (approveBooking_scan e st b) as [[Hs ->] | [Hs ->]]; simpl.
    + split; [by intros _; apply Hconf | done].
    + split; [| by intros Hc; destruct Hs; apply Hconf].
      intros [Ho _]. exfalso.
      destruct (updateBookingStatusInFirestore e (bookings st) (Booking.id b) confirmed);
        simpl in Ho; [destruct (emailOk e) |]; discriminate Ho.
  - intros Hn Hw. subst r.
    destruct (approveBooking_scan e st b) as [[Hs _] | [_ ->]];
      [by destruct Hn; apply Hconf |].
    rewrite (updateBookingStatus_ok _ _ _ _ _ Hw Hb). simpl. split; [| done].
    f_equal. apply map_eq. intros k. rewrite lookup_alter, lookup_insert.
    case_decide; [by subst; rewrite Hb | done].
  - intros e2 b2 Hq2 Hb2 Hp2 Hne H1 H2 Ho Hdone.
    assert (Hb2' : bookings r.1 !! Booking.id b2 = Some (Booking.fields b2)).
    { subst r. destruct (approveBooking_bookings e st b) as [-> | ->]; [done |].
      by rewrite lookup_alter_ne. }
    split; [| done].
    destruct (approveBooking_scan e2 r.1 b2) as [[_ ->] | [Hs _]]; [done |].
    destruct Hs. apply scanFinds_answered; [done |].
    exists (Booking.id b), (Booking.with_status confirmed (Booking.fields b)).
    repeat split; try done.
Qed.

Lemma approveBooking_pending_witness :
  App.approveBooking (calm "") store_AB
    (bookingOn1 "B" driver3 "11:00" "13:00" pending)
  = (store_AB, approvalConflict).
Proof.
  pose proof (approveBooking_pending (calm "") store_AB
                (bookingOn1 "B" driver3 "11:00" "13:00" pending)
                eq_refl eq_refl eq_refl) as [[_ H] _].
  destruct H as [Ho Hs].
  - exists "A", (Booking.fields (bookingOn1 "A" driver2 "10:00" "12:00" confirmed)).
    split; [discriminate |].
    split; [vm_compute; reflexivity |].
    repeat split. exists 660, 780, 600, 720. vm_compute. repeat split.
  - apply injective_projections; [exact Hs | exact Ho].
Defined.

(** ** Approval when the query of the scan fails *)

(** C10: when the query fails, [getExistingBookingsForListing] answers
    the empty list; [approveBooking] then never ends with the conflict
    toast: it goes on to the status write exactly as if the store held no
    booking to compare with, and once that write succeeds the booking is
    confirmed, whatever confirmed bookings the store holds. *)
Theorem approveBooking_scan_failure (e : Env) (st : Store) (b : Booking.t) :
  queryOk e = false ->
  getExistingBookingsForListing e (bookings st)
    (Booking.listingId (Booking.fields b)) (Booking.date (Booking.fields b)) = []
  /\ App.approveBooking e st b
     = match updateBookingStatusInFirestore e (bookings st) (Booking.id b)
               confirmed with
       | None => (st, approvalFailed)
       | Some db =>
           (mkStore db (listings st),
            if emailOk e then approvalDone else approvalFailed)
       end
  /\ (App.approveBooking e st b).2 <> approvalConflict
  /\ (forall d,
         writeOk e (Booking.id b) = true ->
         bookings st !! Booking.id b = Some d ->
         bookings (App.approveBooking e st b).1 !! Booking.id b
           = Some (Booking.with_status confirmed d)
         /\ (App.approveBooking e st b).2
            = (if emailOk e then approvalDone else approvalFailed)).
Proof.
  intros Hq.
  assert (Hrun : App.approveBooking e st b
                 = match updateBookingStatusInFirestore e (bookings st)
                           (Booking.id b) confirmed with
                   | None => (st, approvalFailed)
                   | Some db =>
                       (mkStore db (listings st),
                        if emailOk e then approvalDone else approvalFailed)
                   end).
  { destruct (approveBooking_scan e st b) as [[Hs _] | [_ H]]; [| exact H].
    by destruct (scanFinds_failed e st b Hq). }
  split; [by apply getExistingBookingsForListing_failed |].
  split; [exact Hrun |]. split.
  - rewrite Hrun.
    destruct (updateBookingStatusInFirestore e (bookings st) (Booking.id b) confirmed);
      simpl; [destruct (emailOk e) |]; discriminate.
  - intros d Hw Hd. rewrite Hrun, (updateBookingStatus_ok _ _ _ _ _ Hw Hd). simpl.
    split; [| done]. by rewrite lookup_alter_eq, Hd.
Qed.

Lemma approveBooking_scan_failure_witness :
  bookings
    (App.approveBooking (blind "") store_AB
       (bookingOn1 "B" driver3 "11:00" "13:00" pending)).1 !! "B"
  = Some (Booking.fields (bookingOn1 "B" driver3 "11:00" "13:00" confirmed))
  /\ (App.approveBooking (blind "") store_AB
        (bookingOn1 "B" driver3 "11:00" "13:00" pending)).2 = approvalDone.
Proof.
  pose proof (approveBooking_scan_failure (blind "") store_AB
                (bookingOn1 "B" driver3 "11:00" "13:00" pending) eq_refl)
    as (_ & _ & _ & H).
  exact (H (Booking.fields (bookingOn1 "B" driver3 "11:00" "13:00" pending))
           eq_refl eq_refl).
Defined.

(** ** Approval and the current status *)

Example store_A_denied_bookings :
  bookings store_A_denied
  = {[ "A" := Booking.fields (bookingOn1 "A" driver2 "10:00" "12:00" denied) ]}.
Proof. vm_compute. reflexivity. Qed.

(** C6, as stated, fails: booking A of the store is denied, and an
    approval attempt on it is not refused: it ends with the success
    toast and A is confirmed. *)
Lemma approveBooking_confirms_denied :
  let r := App.approveBooking (calm "") store_A_denied
             (bookingOn1 "A" driver2 "10:00" "12:00" denied) in
  bookings store_A_denied !! "A"
  = Some (Booking.fields (bookingOn1 "A" driver2 "10:00" "12:00" denied))
  /\ bookings r.1 !! "A"
     = Some (Booking.fields (bookingOn1 "A" driver2 "10:00" "12:00" confirmed))
  /\ r.2 = approvalDone.
Proof. vm_compute. repeat split; reflexivity. Qed.

(** C6, amended: [approveBooking] does not look at the current status.
    For a stored booking of any status, when the query is answered, no
    confirmed booking of the store on that listing and date (the booking
    itself included, when it is already confirmed) overlaps the requested
    window, and the write succeeds, the stored status becomes
    ['confirmed']. Only the owner's list of requests is restricted:
    [getBookingRequestsForOwner] hands out pending bookings only. *)
Theorem approveBooking_any_status (e : Env) (st : Store) (b : Booking.t)
    (d : Booking.data) :
  queryOk e = true ->
  writeOk e (Booking.id b) = true ->
  bookings st !! Booking.id b = Some d ->
  (forall k c, ~ confirmedOverlap st b k c) ->
  (App.approveBooking e st b).1
  = mkStore (<[Booking.id b := Booking.with_status confirmed d]> (bookings st))
            (listings st)
  /\ (App.approveBooking e st b).2
     = (if emailOk e then approvalDone else approvalFailed)
  /\ (forall owner r,
         r ∈ getBookingRequestsForOwner e (bookings st) owner ->
         Booking.status (Booking.fields r) = pending).
Proof.
  intros Hq Hw Hd Hn.
  assert (Hrun : App.approveBooking e st b
                 = (mkStore (alter (Booking.with_status confirmed) (Booking.id b)
                               (bookings st)) (listings st),
                    if emailOk e then approvalDone else approvalFailed)).
  { destruct (approveBooking_scan e st b) as [[Hs _] | [_ ->]].
    - apply scanFinds_answered in Hs as (k & c & Hc); [| done].
      destruct (Hn k c Hc).
    - by rewrite (updateBookingStatus_ok _ _ _ _ _ Hw Hd). }
  rewrite Hrun. simpl. split; [| split; [done |]].
  - f_equal. apply map_eq. intros k. rewrite lookup_alter, lookup_insert.
    case_decide; [by subst; rewrite Hd | done].
  - intros owner r Hr. by apply elem_of_getBookingRequestsForOwner in Hr as (_ & _ & ?).
Qed.

Lemma approveBooking_any_status_witness :
  bookings
    (App.approveBooking (calm "") store_A_denied
       (bookingOn1 "A" driver2 "10:00" "12:00" denied)).1 !! "A"
  = Some (Booking.fields (bookingOn1 "A" driver2 "10:00" "12:00" confirmed)).
Proof.
  pose proof (approveBooking_any_status (calm "") store_A_denied
                (bookingOn1 "A" driver2 "10:00" "12:00" denied)
                (Booking.fields (bookingOn1 "A" driver2 "10:00" "12:00" denied))
                eq_refl eq_refl eq_refl) as H.
  destruct H as (H & _ & _).
  - intros k c (Hl & _ & _ & Hs & _).
    rewrite store_A_denied_bookings in Hl.
    apply lookup_singleton_Some in Hl as [_ <-]. discriminate Hs.
  - rewrite H. apply lookup_insert_eq.
Defined.

(** ** Deletion *)

(** C5, as stated, fails: booking A of the store is pending, and
    [deleteBooking] on its id ends with the success toast and removes
    the record. *)
Lemma deleteBooking_removes_pending :
  let r := App.deleteBooking (calm "") (Some driver2) store_A_requested "A" in
  bookings store_A_requested !! "A"
  = Some (Booking.fields (bookingOn1 "A" driver2 "10:00" "12:00" pending))
  /\ bookings r.1 !! "A" = None
  /\ r.2 = bookingDeleted.
Proof. vm_compute. repeat split; reflexivity. Qed.

(** C5, amended: [deleteBooking] performs no test on the status. With a
    user logged in and the store answering, the record of any status,
    ['pending'] and ['confirmed'] included, is removed, nothing else
    changes and the success toast is shown. The restriction lies in the
    booking card: its delete button is rendered exactly for the statuses
    ['denied'], ['canceled_by_user'] and ['canceled_by_owner'], and its
    cancel button exactly for ['pending'] and ['confirmed']. *)
Theorem deleteBooking_any_status (e : Env) (u : User) (st : Store) (k : string) :
  writeOk e k = true ->
  App.deleteBooking e (Some u) st k
  = (mkStore (delete k (bookings st)) (listings st), bookingDeleted)
  /\ bookings (App.deleteBooking e (Some u) st k).1 !! k = None
  /\ (forall b,
         ProfileView.canDelete b = true
         <-> Booking.status (Booking.fields b) = denied
             \/ Booking.status (Booking.fields b) = canceled_by_user
             \/ Booking.status (Booking.fields b) = canceled_by_owner)
  /\ (forall b,
         ProfileView.canCancel b = true
         <-> Booking.status (Booking.fields b) = pending
             \/ Booking.status (Booking.fields b) = confirmed).
Proof.
  intros Hw.
  assert (Hrun : App.deleteBooking e (Some u) st k
                 = (mkStore (delete k (bookings st)) (listings st), bookingDeleted)).
  { unfold App.deleteBooking, deleteBookingFromFirestore. by rewrite Hw. }
  split; [exact Hrun |]. split; [rewrite Hrun; apply lookup_delete_eq |]. split.
  - intros b. unfold ProfileView.canDelete. rewrite bool_decide_eq_true.
    rewrite !elem_of_cons, elem_of_nil. destruct b as [i [? ? ? ? ? ? ? ? ? ? ? s ?]].
    simpl. destruct s; intuition congruence.
  - intros b. unfold ProfileView.canCancel.
    rewrite orb_true_iff, !bool_decide_eq_true. reflexivity.
Qed.

Lemma deleteBooking_any_status_witness :
  bookings (App.deleteBooking (calm "") (Some driver2) store_A_confirmed "A").1 !! "A"
  = None.
Proof.
  pose proof (deleteBooking_any_status (calm "") driver2 store_A_confirmed "A"
                eq_refl) as (_ & H & _).
  exact H.
Defined.

(** ** Sequences of operations *)



















(** ** The cascade of [updateListing] *)

(** The example of the specification: the window shrinks from
    09:00-17:00 to 09:00-12:00; the confirmed booking 10:00-12:00 stays,
    the pending booking 11:00-13:00 is canceled by the owner. *)
Example updateListing_shrink_example :
  let r := App.updateListing (calm "") (Some owner1) store_AB "1"
             (listing1_as "2024-09-20" "09:00" "12:00") in
  bookings r.1
  = {[ "A" := Booking.fields (bookingOn1 "A" driver2 "10:00" "12:00" confirmed);
       "B" := Booking.fields
                (bookingOn1 "B" driver3 "11:00" "13:00" canceled_by_owner) ]}
  /\ r.2 = listingUpdated.
Proof. vm_compute. split; reflexivity. Qed.

Example store_N_bookings :
  bookings store_N
  = {[ "N" := Booking.fields (bookingOn1 "N" driver2 "9:30" "11:00" confirmed) ]}.
Proof. vm_compute. reflexivity. Qed.

(** C3 on the code: the window of listing 1 shrinks from 09:00-17:00
    to 10:00-17:00 on the same date. The confirmed booking N, 9:30-11:00,
    starts 30 minutes before the new window, and yet [updateListing]
    leaves it confirmed: the loop compares the time strings, and "9:30"
    is not below "10:00" as a string. The other way round, when the
    window shrinks to 9:00-16:00, the confirmed booking A, 10:00-12:00,
    lies within the new window and is canceled, because "10:00" is below
    "9:00" as a string. *)
Theorem updateListing_misses_unpadded_start :
  let r := App.updateListing (calm "") (Some owner1) store_N "1"
             (listing1_as "2024-09-20" "10:00" "17:00") in
  let q := App.updateListing (calm "") (Some owner1) store_A_confirmed "1"
             (listing1_as "2024-09-20" "9:00" "16:00") in
  App.timeToMinutes "9:30" = Int 570
  /\ App.timeToMinutes "10:00" = Int 600
  /\ str_lt "9:30" "10:00" = false
  /\ bookings store_N !! "N"
     = Some (Booking.fields (bookingOn1 "N" driver2 "9:30" "11:00" confirmed))
  /\ bookings r.1 !! "N"
     = Some (Booking.fields (bookingOn1 "N" driver2 "9:30" "11:00" confirmed))
  /\ listings r.1 !! "1"
     = Some (Listing.mkData "user-1" (listing1_as "2024-09-20" "10:00" "17:00"))
  /\ r.2 = listingUpdated
  /\ App.timeToMinutes "9:00" = Int 540
  /\ str_lt "10:00" "9:00" = true
  /\ bookings store_A_confirmed !! "A"
     = Some (Booking.fields (bookingOn1 "A" driver2 "10:00" "12:00" confirmed))
  /\ bookings q.1 !! "A"
     = Some (Booking.fields
               (bookingOn1 "A" driver2 "10:00" "12:00" canceled_by_owner))
  /\ q.2 = listingUpdated.
Proof. vm_compute. repeat split; reflexivity. Qed.

(** The loop of the cascade leaves alone every document whose id is not
    among the fetched bookings. *)
Lemma cascade_untouched (e : Env) (l : Listing.input) (bs : list Booking.t)
    (st : Store) (k : string) :
  (forall bk, bk ∈ bs -> Booking.id bk <> k) ->
  bookings (foldl (App.cancelIfConflict e l) st bs) !! k = bookings st !! k.
Proof.
  revert st. induction bs as [| b bs IH]; intros st Hk; simpl; [done |].
  rewrite IH by (intros bk Hin; apply Hk; by right).
  assert (Hb : Booking.id b <> k) by (apply Hk; by left).
  unfold App.cancelIfConflict.
  match goal with |- context [if ?c then _ else _] => destruct c end; [| done].
  unfold App.cancelBookingByOwner.
  destruct (updateBookingStatus_cases e (bookings st) (Booking.id b) canceled_by_owner)
    as [-> | ->]; simpl; [done |].
  by rewrite lookup_alter_ne.
Qed.

Lemma cascade_listings (e : Env) (l : Listing.input) (bs : list Booking.t)
    (st : Store) :
  listings (foldl (App.cancelIfConflict e l) st bs) = listings st.
Proof.
  revert st. induction bs as [| b bs IH]; intros st; simpl; [done |].
  rewrite IH. unfold App.cancelIfConflict.
  match goal with |- context [if ?c then _ else _] => destruct c end; [| done].
  unfold App.cancelBookingByOwner.
  by destruct (updateBookingStatusInFirestore e (bookings st) (Booking.id b)
                 canceled_by_owner).
Qed.

(** C4 on the code: [updateListing] fetches the bookings of the new
    date only, so a booking whose date differs from the new date of the
    listing is never fetched, never compared and never canceled, whatever
    its status and whatever the answers of the store. *)
Theorem updateListing_skips_other_dates (e : Env) (u : option User)
    (st : Store) (listingId : string) (listingData : Listing.input)
    (k : string) (d : Booking.data) :
  bookings st !! k = Some d ->
  Booking.date d <> Listing.date listingData ->
  bookings (App.updateListing e u st listingId listingData).1 !! k = Some d.
Proof.
  intros Hd Hdate. unfold App.updateListing. destruct u as [u |]; [| done].
  assert (Hloop : bookings
                    (foldl (App.cancelIfConflict e listingData) st
                       (getExistingBookingsForListing e (bookings st) listingId
                          (Listing.date listingData))) !! k = Some d).
  { rewrite cascade_untouched; [done |].
    intros bk Hin <-. destruct (queryOk e) eqn:Hq.
    - apply elem_of_getExistingBookingsForListing in Hin as (Hl & _ & Hdt); [| done].
      congruence.
    - rewrite getExistingBookingsForListing_failed in Hin by done.
      by apply elem_of_nil in Hin. }
  match goal with
  | |- context [updateListingInFirestore ?e ?ls ?k ?l] =>
      destruct (updateListingInFirestore e ls k l)
  end; exact Hloop.
Qed.

(** The listing moves from 2024-09-20 to 2024-09-21: booking A,
    confirmed on 2024-09-20, stays confirmed. *)
Lemma updateListing_skips_other_dates_witness :
  let r := App.updateListing (calm "") (Some owner1) store_A_confirmed "1"
             (listing1_as "2024-09-21" "09:00" "17:00") in
  bookings r.1 !! "A"
  = Some (Booking.fields (bookingOn1 "A" driver2 "10:00" "12:00" confirmed)).
Proof.
  exact (updateListing_skips_other_dates (calm "") (Some owner1)
           store_A_confirmed "1" (listing1_as "2024-09-21" "09:00" "17:00") "A"
           (Booking.fields (bookingOn1 "A" driver2 "10:00" "12:00" confirmed))
           eq_refl ltac:(discriminate)).
Defined.

Example updateListing_moved_date_outcome :
  let r := App.updateListing (calm "") (Some owner1) store_A_confirmed "1"
             (listing1_as "2024-09-21" "09:00" "17:00") in
  r.2 = listingUpdated
  /\ listings r.1 !! "1"
     = Some (Listing.mkData "user-1" (listing1_as "2024-09-21" "09:00" "17:00")).
Proof. vm_compute. split; reflexivity. Qed.

(** ** Duplicate listings *)

(** The two cases of the specification, on zero-padded times: a second
    listing of the same spot and day is rejected when its window
    overlaps, and added when it does not. *)
Example addListing_padded_examples :
  App.addListing (calm "2") (Some owner1) store0
    (listing1_as "2024-09-20" "16:00" "18:00")
  = (store0, listingDuplicate)
  /\ (App.addListing (calm "2") (Some owner1) store0
        (listing1_as "2024-09-20" "17:00" "19:00")).2 = listingAdded
  /\ listings (App.addListing (calm "2") (Some owner1) store0
                 (listing1_as "2024-09-20" "17:00" "19:00")).1 !! "2"
     = Some (Listing.mkData "user-1" (listing1_as "2024-09-20" "17:00" "19:00")).
Proof. vm_compute. repeat split; reflexivity. Qed.

(** C9 on the code: the spot is listed 9:00-11:00; a second listing of
    the same address, city, zip code and date for 10:00-12:00, which
    overlaps the first by an hour, is added without a duplicate signal,
    because "12:00" is not above "9:00" as a string. The other way
    round, with the spot listed 1:00-3:00, a listing for 20:00-23:00,
    which does not overlap, is rejected as a duplicate. The form accepts
    all these times. *)
Theorem addListing_misses_unpadded_overlap :
  let r := App.addListing (calm "L10") (Some owner1) store_9_11
             (listing1_as "2024-09-20" "10:00" "12:00") in
  let q := App.addListing (calm "L20") (Some owner1) store_1_3
             (listing1_as "2024-09-20" "20:00" "23:00") in
  listings store_9_11 !! "L9"
  = Some (Listing.mkData "user-1" (listing1_as "2024-09-20" "9:00" "11:00"))
  /\ ListingForm.timeToMinutes "9:00" = Int 540
  /\ ListingForm.timeToMinutes "11:00" = Int 660
  /\ ListingForm.timeToMinutes "10:00" = Int 600
  /\ ListingForm.timeToMinutes "12:00" = Int 720
  /\ str_gt "12:00" "9:00" = false
  /\ r.2 = listingAdded
  /\ listings r.1 !! "L9"
     = Some (Listing.mkData "user-1" (listing1_as "2024-09-20" "9:00" "11:00"))
  /\ listings r.1 !! "L10"
     = Some (Listing.mkData "user-1" (listing1_as "2024-09-20" "10:00" "12:00"))
  /\ listings store_1_3 !! "L1"
     = Some (Listing.mkData "user-1" (listing1_as "2024-09-20" "1:00" "3:00"))
  /\ ListingForm.timeToMinutes "1:00" = Int 60
  /\ ListingForm.timeToMinutes "3:00" = Int 180
  /\ ListingForm.timeToMinutes "20:00" = Int 1200
  /\ ListingForm.timeToMinutes "23:00" = Int 1380
  /\ q.2 = listingDuplicate
  /\ listings q.1 !! "L20" = None.
Proof. vm_compute. repeat split; reflexivity. Qed.

(** ** What the two string comparisons do on zero-padded times *)

Lemma PaddedTime_timeToMinutes (s : string) (x : Z) :
  PaddedTime s x -> App.timeToMinutes s = Int x.
Proof.
  intros Hs. destruct Hs as [h1 h2 m1 m2 H1 H2 H3 H4 Hh Hm].
  unfold App.timeToMinutes.
  rewrite (timeToMinutes_checked_TimeString _ _ _ (TimeString_HH _ _ _ _ H1 H2 H3 H4)).
  destruct (Z.leb_spec (digitValue h1 * 10 + digitValue h2) 23); [| lia].
  destruct (Z.leb_spec (digitValue m1 * 10 + digitValue m2) 59); [| lia].
  reflexivity.
Qed.

(** On zero-padded times the order of the strings is the order of the
    minute counts. *)
Lemma str_lt_padded (s t : string) (x y : Z) :
  PaddedTime s x -> PaddedTime t y -> str_lt s t = true <-> x < y.
Proof.
  intros Hs Ht. destruct Hs, Ht.
  repeat match goal with
         | H : isDigit _ = true |- _ => apply digitValue_range in H
         end.
  unfold digitValue in *. simpl.
  repeat match goal with
         | |- context [(?a <? ?b)%nat] => destruct (Nat.ltb_spec a b)
         end; split; intros; try done; try lia.
Qed.

(** The loop of the cascade at one of the fetched bookings. *)
Lemma cascade_at (e : Env) (l : Listing.input) (bs : list Booking.t)
    (st : Store) (bk : Booking.t) (d0 : Booking.data) :
  NoDup (Booking.id <$> bs) -> bk ∈ bs ->
  bookings st !! Booking.id bk = Some d0 ->
  bookings (foldl (App.cancelIfConflict e l) st bs) !! Booking.id bk
  = Some (if App.listingConflict l (Booking.fields bk)
             && isActive (Booking.fields bk)
             && writeOk e (Booking.id bk)
          then Booking.with_status canceled_by_owner d0 else d0).
Proof.
  revert st. induction bs as [| b bs IH]; intros st Hnd Hin Hd0.
  - by apply elem_of_nil in Hin.
  - rewrite fmap_cons in Hnd. apply NoDup_cons in Hnd as [Hb Hnd].
    simpl. apply elem_of_cons in Hin as [-> | Hin].
    + rewrite cascade_untouched.
      2:{ intros bk Hbk Heq. apply Hb. rewrite <- Heq. by apply list_elem_of_fmap_2. }
      unfold App.cancelIfConflict, isActive.
      destruct (App.listingConflict l (Booking.fields b)
                && (bool_decide (Booking.status (Booking.fields b) = confirmed)
                    || bool_decide (Booking.status (Booking.fields b) = pending)));
        simpl; [| by rewrite Hd0].
      unfold App.cancelBookingByOwner, updateBookingStatusInFirestore.
      rewrite Hd0. destruct (writeOk e (Booking.id b)); simpl; [| by rewrite Hd0].
      by rewrite lookup_alter_eq, Hd0.
    + apply IH; [done | done |].
      assert (Hne : Booking.id b <> Booking.id bk).
      { intros Heq. apply Hb. rewrite Heq. by apply list_elem_of_fmap_2. }
      unfold App.cancelIfConflict.
      match goal with |- context [if ?c then _ else _] => destruct c end; [| done].
      unfold App.cancelBookingByOwner.
      destruct (updateBookingStatus_cases e (bookings st) (Booking.id b)
                  canceled_by_owner) as [-> | ->]; simpl; [done |].
      by rewrite lookup_alter_ne.
Qed.

Lemma getExistingBookingsForListing_NoDup (e : Env)
    (db : gmap string Booking.data) (lid dt : string) :
  NoDup (Booking.id <$> getExistingBookingsForListing e db lid dt).
Proof.
  unfold getExistingBookingsForListing. destruct (queryOk e); [| constructor].
  rewrite <- list_fmap_compose. apply NoDup_fst_map_to_list.
Qed.

(** What [updateListing] does to a booking of the listing on the new
    date, when the query is answered and the write on it succeeds: it
    is canceled by the owner exactly when it is pending or confirmed and
    leaves the new window in the order of the strings. *)
Lemma updateListing_cascade (e : Env) (u : User) (st : Store)
    (listingId : string) (listingData : Listing.input)
    (k : string) (d : Booking.data) :
  queryOk e = true -> writeOk e k = true ->
  bookings st !! k = Some d ->
  Booking.listingId d = listingId ->
  Booking.date d = Listing.date listingData ->
  bookings (App.updateListing e (Some u) st listingId listingData).1 !! k
  = Some (if App.listingConflict listingData d && isActive d
          then Booking.with_status canceled_by_owner d else d).
Proof.
  intros Hq Hw Hd Hl Hdt.
  pose proof (cascade_at e listingData
                (getExistingBookingsForListing e (bookings st) listingId
                   (Listing.date listingData))
                st (Booking.mk k d) d
                (getExistingBookingsForListing_NoDup _ _ _ _)) as Hloop.
  simpl in Hloop. rewrite Hw, andb_true_r in Hloop.
  unfold App.updateListing.
  match goal with
  | |- context [updateListingInFirestore ?e ?ls ?k ?l] =>
      destruct (updateListingInFirestore e ls k l)
  end; simpl; apply Hloop; try done;
    by apply elem_of_getExistingBookingsForListing.
Qed.

(** On zero-padded times of the day the cascade does what the
    specification says: a
    pending or confirmed booking of the listing on the unchanged date
    stays as it is when its window lies within the new window, and is
    canceled by the owner otherwise. *)
Lemma updateListing_cascade_padded (e : Env) (u : User) (st : Store)
    (listingId : string) (listingData : Listing.input)
    (k : string) (d : Booking.data) (bs be ls le : Z) :
  queryOk e = true -> writeOk e k = true ->
  bookings st !! k = Some d ->
  Booking.listingId d = listingId ->
  Booking.date d = Listing.date listingData ->
  Booking.status d = pending \/ Booking.status d = confirmed ->
  PaddedTime (Booking.startTime d) bs -> PaddedTime (Booking.endTime d) be ->
  PaddedTime (Listing.startTime listingData) ls ->
  PaddedTime (Listing.endTime listingData) le ->
  bookings (App.updateListing e (Some u) st listingId listingData).1 !! k
  = Some (if decide (ls <= bs /\ be <= le) then d
          else Booking.with_status canceled_by_owner d).
Proof.
  intros Hq Hw Hd Hl Hdt Hs Pbs Pbe Pls Ple.
  rewrite (updateListing_cascade e u st listingId listingData k d) by done.
  assert (Hact : isActive d = true).
  { unfold isActive. destruct Hs as [-> | ->]; reflexivity. }
  rewrite Hact, andb_true_r. unfold App.listingConflict, str_gt.
  rewrite Hdt, String.eqb_refl. simpl.
  pose proof (str_lt_padded _ _ _ _ Pbs Pls) as H1.
  pose proof (str_lt_padded _ _ _ _ Ple Pbe) as H2.
  destruct (str_lt (Booking.startTime d) (Listing.startTime listingData)),
           (str_lt (Listing.endTime listingData) (Booking.endTime d));
    simpl; case_decide; try done; destruct H1, H2; lia.
Qed.


Lemma elem_of_checkForExistingListing (e : Env)
    (db : gmap string Listing.data) (l : Listing.data) (x : Listing.t) :
  queryOk e = true ->
  x ∈ checkForExistingListing e db l
  <-> db !! Listing.id x = Some (Listing.fields x)
      /\ sameSpotAndDay (Listing.fields x) l.
Proof.
  intros Hq. unfold checkForExistingListing, sameSpotAndDay. rewrite Hq.
  rewrite list_elem_of_fmap. split.
  - intros ([k d] & -> & Hin).
    apply elem_of_map_to_list, map_lookup_filter_Some in Hin as [Hl H].
    simpl in *. auto.
  - intros (Hl & H). exists (Listing.id x, Listing.fields x). split.
    + by destruct x.
    + apply elem_of_map_to_list, map_lookup_filter_Some. simpl. auto.
Qed.

(** On zero-padded times of the day [addListing] does what the
    specification says:
    with the query answered and the insertion succeeding, the listing is
    rejected as a duplicate, nothing inserted, when a listing of the same
    address, city, zip code and date has an overlapping window, and
    inserted otherwise. *)
Lemma addListing_padded (e : Env) (u : User) (st : Store)
    (listingData : Listing.input) (ns ne : Z) :
  queryOk e = true -> writeOk e (newId e) = true ->
  PaddedTime (Listing.startTime listingData) ns ->
  PaddedTime (Listing.endTime listingData) ne ->
  (forall k d,
      listings st !! k = Some d ->
      sameSpotAndDay d (Listing.mkData (user_id u) listingData) ->
      exists es ee,
        PaddedTime (Listing.startTime (Listing.details d)) es
        /\ PaddedTime (Listing.endTime (Listing.details d)) ee) ->
  let overlapping :=
    exists k d es ee,
      listings st !! k = Some d
      /\ sameSpotAndDay d (Listing.mkData (user_id u) listingData)
      /\ PaddedTime (Listing.startTime (Listing.details d)) es
      /\ PaddedTime (Listing.endTime (Listing.details d)) ee
      /\ ns < ee /\ es < ne in
  (overlapping ->
   App.addListing e (Some u) st listingData = (st, listingDuplicate))
  /\ (~ overlapping ->
      App.addListing e (Some u) st listingData
      = (mkStore (bookings st)
           (<[newId e := Listing.mkData (user_id u) listingData]> (listings st)),
         if emailOk e then listingAdded else listingFailed)).
Proof.
  intros Hq Hw Pns Pne Hpad overlapping.
  unfold App.addListing, addListingToFirestore. rewrite Hw.
  match goal with
  | |- context [existsb ?f ?l] => destruct (existsb f l) eqn:Hex
  end.
  - split; [done |]. intros Hn. destruct Hn.
    apply existsb_exists in Hex as (x & Hin & Hx).
    apply list_elem_of_In, elem_of_checkForExistingListing in Hin as [Hl Hsame];
      [| done].
    destruct (Hpad _ _ Hl Hsame) as (es & ee & Pes & Pee).
    apply andb_prop in Hx as [H1 H2]. unfold str_gt in H2.
    apply (str_lt_padded _ _ _ _ Pns Pee) in H1.
    apply (str_lt_padded _ _ _ _ Pes Pne) in H2.
    exists (Listing.id x), (Listing.fields x), es, ee. auto 10.
  - split; [| done]. intros (k & d & es & ee & Hl & Hsame & Pes & Pee & H1 & H2).
    exfalso.
    assert (Ht : existsb
                   (λ existing,
                      str_lt (Listing.startTime listingData)
                        (Listing.endTime (Listing.details (Listing.fields existing)))
                      && str_gt (Listing.endTime listingData)
                           (Listing.startTime
                              (Listing.details (Listing.fields existing))))
                   (checkForExistingListing e (listings st)
                      (Listing.mkData (user_id u) listingData)) = true).
    { apply existsb_exists. exists (Listing.mk k d). split.
      - apply list_elem_of_In, elem_of_checkForExistingListing; [done |]. by simpl.
      - simpl. apply andb_true_intro. unfold str_gt. split.
        + by apply (str_lt_padded _ _ _ _ Pns Pee).
        + by apply (str_lt_padded _ _ _ _ Pes Pne). }
    congruence.
Qed.

(** * Further properties of the code *)

(** ** The overlap test and the parsers *)

(** The overlap test of [approveBooking] does not depend on which of the
    two windows is the request: it is symmetric, [NaN] included. *)
Theorem intervalsOverlap_symmetric (aStart aEnd bStart bEnd : number) :
  App.intervalsOverlap aStart aEnd bStart bEnd
  = App.intervalsOverlap bStart bEnd aStart aEnd.
Proof.
  unfold App.intervalsOverlap, num_gt, num_lt.
  destruct aStart as [| a | []], aEnd as [| b | []],
           bStart as [| c | []], bEnd as [| d | []]; simpl; try reflexivity;
    rewrite ?andb_false_r, ?andb_true_r; try reflexivity.
  apply andb_comm.
Qed.

(** Whatever the string, the strict parser answers [NaN] or a minute of
    the day, from 0 to 1439, and never an infinity. *)
Theorem timeToMinutes_range (s : string) (n : Z) :
  (App.timeToMinutes s = Int n \/ ConfirmationModal.timeToMinutes s = Int n ->
   0 <= n <= 1439)
  /\ (forall negative,
         App.timeToMinutes s <> Infinity negative
         /\ ConfirmationModal.timeToMinutes s <> Infinity negative).
Proof.
  split.
  - intros [H | H];
      apply timeToMinutes_checked_Int in H as (h & m & _ & Hh & Hm & ->); lia.
  - intros negative. split; apply timeToMinutes_checked_finite.
Qed.

Lemma timeToMinutes_range_witness : 0 <= 1439 <= 1439.
Proof.
  exact (proj1 (timeToMinutes_range "23:59" 1439) (or_introl eq_refl)).
Defined.

(** On two zero-padded times of the day, the comparison of the strings,
    as [addListing] and [updateListing] make it, gives what the
    comparison of the minute counts of [timeToMinutes] gives. *)
Theorem str_lt_is_minute_order (s t : string) (x y : Z) :
  PaddedTime s x -> PaddedTime t y ->
  str_lt s t = num_lt (App.timeToMinutes s) (App.timeToMinutes t)
  /\ str_gt s t = num_gt (App.timeToMinutes s) (App.timeToMinutes t).
Proof.
  intros Hs Ht.
  rewrite (PaddedTime_timeToMinutes _ _ Hs), (PaddedTime_timeToMinutes _ _ Ht).
  unfold str_gt, num_gt. simpl.
  pose proof (str_lt_padded _ _ _ _ Hs Ht) as H1.
  pose proof (str_lt_padded _ _ _ _ Ht Hs) as H2.
  split.
  - destruct (str_lt s t), (Z.ltb_spec x y); try reflexivity.
    + assert (x < y) by (by apply H1). lia.
    + assert (true = false) as Hf; [| discriminate Hf].
      symmetry. by apply H1.
  - destruct (str_lt t s), (Z.ltb_spec y x); try reflexivity.
    + assert (y < x) by (by apply H2). lia.
    + assert (true = false) as Hf; [| discriminate Hf].
      symmetry. by apply H2.
Qed.

Lemma PaddedTime_0930 : PaddedTime "09:30" 570.
Proof.
  exact (PaddedTime_intro "0" "9" "3" "0" eq_refl eq_refl eq_refl eq_refl
           ltac:(vm_compute; discriminate) ltac:(vm_compute; discriminate)).
Qed.

Lemma PaddedTime_1000 : PaddedTime "10:00" 600.
Proof.
  exact (PaddedTime_intro "1" "0" "0" "0" eq_refl eq_refl eq_refl eq_refl
           ltac:(vm_compute; discriminate) ltac:(vm_compute; discriminate)).
Qed.

Lemma str_lt_is_minute_order_witness :
  str_lt "09:30" "10:00"
  = num_lt (App.timeToMinutes "09:30") (App.timeToMinutes "10:00").
Proof.
  exact (proj1 (str_lt_is_minute_order "09:30" "10:00" 570 600
                  PaddedTime_0930 PaddedTime_1000)).
Defined.

(** ** Booking requests *)

Lemma with_status_idem (s s' : Status) (d : Booking.data) :
  Booking.with_status s (Booking.with_status s' d) = Booking.with_status s d.
Proof. reflexivity. Qed.

Lemma with_status_same (d : Booking.data) :
  Booking.with_status (Booking.status d) d = d.
Proof. by destruct d. Qed.

Lemma requestBooking_run (e : Env) (u : User) (st : Store) (listing : Listing.t)
    (startTime endTime : string) (a b : Z) :
  user_email u <> "" ->
  App.timeToMinutes startTime = Int a ->
  App.timeToMinutes endTime = Int b ->
  writeOk e (newId e) = true ->
  App.requestBooking e (Some u) st listing startTime endTime
  = (mkStore (<[newId e := requestedBooking e u listing startTime endTime]>
                (bookings st)) (listings st),
     if emailOk e
     then mkOutcome
            (String.append "Request sent for "
               (String.append
                  (App.fullLocation (Listing.details (Listing.fields listing))) "!"))
            success false
     else mkOutcome "Sorry, something went wrong with the booking request."
            error true).
Proof.
  intros Hu Ha Hb Hw. unfold App.requestBooking, addBookingToFirestore.
  apply String.eqb_neq in Hu. rewrite Hu, Ha, Hb, Hw. reflexivity.
Qed.

(** A request of a logged-in user whose two times are times of the day
    is stored, with status ['pending'] and with the listing's id, date,
    rate, owner and location as they are at that moment, also when the
    end is not after the start or the window lies outside the listing's
    window: neither is tested. When the text of the notification cannot
    be generated afterwards, the booking stays stored although the caller
    is told that the request failed. *)
Theorem requestBooking_stores (e : Env) (u : User) (st : Store)
    (listing : Listing.t) (startTime endTime : string) (a b : Z) :
  user_email u <> "" ->
  App.timeToMinutes startTime = Int a ->
  App.timeToMinutes endTime = Int b ->
  writeOk e (newId e) = true ->
  let r := App.requestBooking e (Some u) st listing startTime endTime in
  bookings r.1 !! newId e
  = Some (requestedBooking e u listing startTime endTime)
  /\ (forall k, k <> newId e -> bookings r.1 !! k = bookings st !! k)
  /\ listings r.1 = listings st
  /\ thrown r.2 = negb (emailOk e).
Proof.
  intros Hu Ha Hb Hw r. subst r.
  rewrite (requestBooking_run e u st listing startTime endTime a b Hu Ha Hb Hw).
  simpl. split; [apply lookup_insert_eq |]. split.
  - intros k Hk. by apply lookup_insert_ne.
  - split; [done |]. by destruct (emailOk e).
Qed.

Lemma requestBooking_stores_witness :
  bookings
    (App.requestBooking (calm "R") (Some driver2) store0 listing1
       "12:00" "10:00").1 !! "R"
  = Some (Booking.fields (bookingOn1 "R" driver2 "12:00" "10:00" pending)).
Proof.
  exact (proj1 (requestBooking_stores (calm "R") driver2 store0 listing1
                  "12:00" "10:00" 720 600 ltac:(discriminate) eq_refl eq_refl
                  eq_refl)).
Defined.

(** Without a user, with a user whose e-mail is empty, with a start or
    an end that is not a time of the day, or when the store refuses the
    insertion, [requestBooking] leaves the store as it is and rejects. *)
Theorem requestBooking_rejects (e : Env) (currentUser : option User)
    (st : Store) (listing : Listing.t) (startTime endTime : string) :
  currentUser = None
  \/ (exists u, currentUser = Some u /\ user_email u = "")
  \/ App.timeToMinutes startTime = NaN
  \/ App.timeToMinutes endTime = NaN
  \/ writeOk e (newId e) = false ->
  let r := App.requestBooking e currentUser st listing startTime endTime in
  r.1 = st /\ thrown r.2 = true /\ toastType r.2 = error.
Proof.
  intros H r. subst r. unfold App.requestBooking, addBookingToFirestore.
  destruct currentUser as [u |]; [| done].
  destruct (String.eqb_spec (user_email u) ""); [done |].
  destruct H as [H | [(u' & [= <-] & H) | H]]; [done | done |].
  destruct (App.timeToMinutes startTime) eqn:Hs;
    [done | | by destruct (timeToMinutes_checked_finite _ _ Hs)].
  destruct (App.timeToMinutes endTime) eqn:He;
    [done | | by destruct (timeToMinutes_checked_finite _ _ He)].
  destruct H as [H | [H | H]]; [done | done |].
  rewrite H. done.
Qed.

Lemma requestBooking_rejects_witness :
  (App.requestBooking (calm "R") (Some driver2) store0 listing1
     "10:00" "24:00").1 = store0.
Proof.
  exact (proj1 (requestBooking_rejects (calm "R") (Some driver2) store0 listing1
                  "10:00" "24:00"
                  (or_intror (or_intror (or_intror (or_introl eq_refl)))))).
Defined.

(** ** What one step does to one booking *)

Lemma status_write_lookup (e : Env) (db db' : gmap string Booking.data)
    (k : string) (s : Status) (j : string) :
  updateBookingStatusInFirestore e db k s = Some db' ->
  db' !! j = db !! j
  \/ exists d, db !! j = Some d /\ db' !! j = Some (Booking.with_status s d).
Proof.
  intros Hu.
  destruct (updateBookingStatus_cases e db k s) as [Hn | Ha]; [congruence |].
  rewrite Ha in Hu. injection Hu as <-. rewrite lookup_alter.
  case_decide; [| by left]. subst j.
  destruct (db !! k) as [d |]; [right; by exists d | by left].
Qed.

Lemma cascade_lookup_cases (e : Env) (l : Listing.input)
    (bs : list Booking.t) (st : Store) (k : string) :
  bookings (foldl (App.cancelIfConflict e l) st bs) !! k = bookings st !! k
  \/ exists d,
       bookings st !! k = Some d
       /\ bookings (foldl (App.cancelIfConflict e l) st bs) !! k
          = Some (Booking.with_status canceled_by_owner d).
Proof.
  revert st. induction bs as [| b bs IH]; intros st; simpl; [by left |].
  assert (Hstep :
            bookings (App.cancelIfConflict e l st b) !! k = bookings st !! k
            \/ exists d,
                 bookings st !! k = Some d
                 /\ bookings (App.cancelIfConflict e l st b) !! k
                    = Some (Booking.with_status canceled_by_owner d)).
  { unfold App.cancelIfConflict.
    match goal with |- context [if ?c then _ else _] => destruct c end;
      [| by left].
    unfold App.cancelBookingByOwner.
    destruct (updateBookingStatusInFirestore e (bookings st) (Booking.id b)
                canceled_by_owner) eqn:Hu; simpl; [| by left].
    by apply (status_write_lookup e _ _ _ _ k) in Hu. }
  destruct (IH (App.cancelIfConflict e l st b)) as [-> | (d' & Hd' & ->)].
  - exact Hstep.
  - destruct Hstep as [Hs | (d & Hd & Hs)].
    + right. exists d'. split; [congruence | done].
    + right. exists d. split; [done |]. rewrite Hs in Hd'. by injection Hd' as <-.
Qed.

(** After one step, a document is as it was, or as it was up to its
    status, which is not ['pending'] then, or deleted by [deleteBooking],
    or the one just requested. *)
Lemma run_lookup_cases (e : Env) (op : Op) (st : Store) (k : string) :
  bookings (run e op st) !! k = bookings st !! k
  \/ (exists s d,
         bookings st !! k = Some d
         /\ bookings (run e op st) !! k = Some (Booking.with_status s d)
         /\ s <> pending)
  \/ (bookings (run e op st) !! k = None /\ exists u, op = DeleteBooking u k)
  \/ (exists d, bookings (run e op st) !! k = Some d /\ justRequested e op k d).
Proof.
  destruct op as [u l s t | b | b | u b | b | u j | u l | u j l]; simpl.
  - destruct u as [u |]; [| by left].
    destruct (String.eqb_spec (user_email u) "") as [Hu | Hu];
      [left; unfold App.requestBooking; by rewrite Hu, String.eqb_refl |].
    minutes_cases (App.timeToMinutes s) as a eqn:Hs;
      [left; unfold App.requestBooking; rewrite Hs;
       by destruct (String.eqb (user_email u) "") |].
    minutes_cases (App.timeToMinutes t) as c eqn:Ht;
      [left; unfold App.requestBooking; rewrite Hs, Ht;
       by destruct (String.eqb (user_email u) "") |].
    destruct (writeOk e (newId e)) eqn:Hw.
    + rewrite (requestBooking_run e u st l s t a c Hu Hs Ht Hw). simpl.
      destruct (decide (k = newId e)) as [-> | Hk].
      * right. right. right. eexists. split; [apply lookup_insert_eq |].
        exists u, l, s, t, a, c. auto 10.
      * left. by apply lookup_insert_ne.
    + left. unfold App.requestBooking, addBookingToFirestore.
      rewrite Hs, Ht, Hw. by destruct (String.eqb (user_email u) "").
  - destruct (approveBooking_scan e st b) as [[_ ->] | [_ ->]]; [by left |].
    destruct (updateBookingStatusInFirestore e (bookings st) (Booking.id b) confirmed)
      eqn:Hu; simpl; [| by left].
    apply (status_write_lookup e _ _ _ _ k) in Hu as [H | (d & Hd & H)];
      [by left | right; left; eexists _, _; repeat split; eauto; discriminate].
  - unfold App.denyBooking.
    destruct (updateBookingStatusInFirestore e (bookings st) (Booking.id b) denied)
      eqn:Hu; simpl; [| by left].
    apply (status_write_lookup e _ _ _ _ k) in Hu as [H | (d & Hd & H)];
      [by left | right; left; eexists _, _; repeat split; eauto; discriminate].
  - unfold App.cancelBookingByUser. destruct u as [u |]; [| by left].
    destruct (String.eqb (user_email u) ""); [by left |].
    destruct (updateBookingStatusInFirestore e (bookings st) (Booking.id b)
                canceled_by_user) eqn:Hu; simpl; [| by left].
    apply (status_write_lookup e _ _ _ _ k) in Hu as [H | (d & Hd & H)];
      [by left | right; left; eexists _, _; repeat split; eauto; discriminate].
  - unfold App.cancelBookingByOwner.
    destruct (updateBookingStatusInFirestore e (bookings st) (Booking.id b)
                canceled_by_owner) eqn:Hu; simpl; [| by left].
    apply (status_write_lookup e _ _ _ _ k) in Hu as [H | (d & Hd & H)];
      [by left | right; left; eexists _, _; repeat split; eauto; discriminate].
  - unfold App.deleteBooking, deleteBookingFromFirestore.
    destruct u as [u |]; [| by left].
    destruct (writeOk e j); simpl; [| by left].
    destruct (decide (j = k)) as [-> | Hj].
    + right. right. left. split; [apply lookup_delete_eq | eauto].
    + left. by apply lookup_delete_ne.
  - left. unfold App.addListing. destruct u as [u |]; [| done].
    match goal with |- context [existsb ?f ?l] => destruct (existsb f l) end;
      [done |].
    unfold addListingToFirestore. by destruct (writeOk e (newId e)).
  - unfold App.updateListing. destruct u as [u |]; [| by left].
    assert (Hc := cascade_lookup_cases e l
                    (getExistingBookingsForListing e (bookings st) j (Listing.date l))
                    st k).
    match goal with
    | |- context [updateListingInFirestore ?e ?ls ?k ?l] =>
        destruct (updateListingInFirestore e ls k l)
    end; simpl; (destruct Hc as [Hc | (d & Hd & Hc)];
                 [by left | right; left; eexists _, _; repeat split; eauto; discriminate]).
Qed.

Lemma run_validTimes (e : Env) (op : Op) (st : Store) :
  validTimes (bookings st) -> validTimes (bookings (run e op st)).
Proof.
  intros Hv k d' Hd'.
  destruct (run_lookup_cases e op st k)
    as [H | [(s & d & Hd & H & _) | [[H _] | (d & H & Hreq)]]].
  - rewrite H in Hd'. by apply (Hv k).
  - rewrite H in Hd'. injection Hd' as <-.
    destruct (Hv k d Hd) as (a & b & Hab). by exists a, b.
  - congruence.
  - rewrite H in Hd'. injection Hd' as <-.
    destruct Hreq as (u & l & s & t & a & b & _ & _ & Ha & Hb & ->).
    exists a, b. simpl. repeat split; try done.
    all: eapply timeToMinutes_checked_Int in Ha as (? & ? & _ & ? & ? & ->);
      eapply timeToMinutes_checked_Int in Hb as (? & ? & _ & ? & ? & ->); lia.
Qed.

(** In every store reached from a store without bookings by any
    sequence of the operations, whatever fails on the way, both times of
    every booking are times of the day: the overlap test of an approval
    never meets [NaN] on stored bookings. *)
Theorem stored_times_valid (ls : gmap string Listing.data)
    (tr : list (Env * Op)) :
  validTimes (bookings (runAll tr (mkStore ∅ ls))).
Proof.
  assert (H : forall st, validTimes (bookings st) ->
                         validTimes (bookings (runAll tr st))).
  { induction tr as [| [e op] tr IH]; intros st Hv; simpl; [done |].
    apply IH. by apply run_validTimes. }
  apply H. intros k d Hd. simpl in Hd. by rewrite lookup_empty in Hd.
Qed.

(** Along a sequence of operations in which [addDoc] assigns unused
    ids, a booking that is not deleted stays in the store and keeps its
    listing, date, window, rate, location and parties: at most its status
    changes, also when the listing is edited in between. *)
Theorem booking_fields_kept (tr : list (Env * Op)) (st : Store)
    (k : string) (d : Booking.data) :
  admissibleAll st tr ->
  Forall (keeps k) tr ->
  bookings st !! k = Some d ->
  exists s, bookings (runAll tr st) !! k = Some (Booking.with_status s d).
Proof.
  revert st d. induction tr as [| [e op] tr IH]; intros st d Ha Hk Hd; simpl.
  - exists (Booking.status d). by rewrite with_status_same.
  - destruct Ha as [Ha Hrest]. apply Forall_cons in Hk as [Hk Hks].
    destruct (run_lookup_cases e op st k)
      as [H | [(s & d0 & Hd0 & H & _) | [[_ (u & ->)] | (d0 & H & Hreq)]]].
    + rewrite Hd in H. apply (IH _ d Hrest Hks H).
    + rewrite Hd in Hd0. injection Hd0 as <-.
      destruct (IH _ _ Hrest Hks H) as (s' & Hs'). exists s'.
      by rewrite Hs', with_status_idem.
    + by destruct (Hk u).
    + destruct Hreq as (u & l & s & t & a & b & -> & -> & _). simpl in Ha. congruence.
Qed.

(** B is requested and refused, listing 1 is moved to another window
    and rate: booking A keeps its window and its rate. *)
Lemma booking_fields_kept_witness :
  exists s,
    bookings
      (runAll [ (calm "B", RequestBooking (Some driver3) listing1 "11:00" "13:00");
                (calm "", ApproveBooking
                            (bookingOn1 "B" driver3 "11:00" "13:00" pending));
                (calm "", UpdateListing (Some owner1) "1"
                            (Listing.mkInput "123 Main St" "Metropolis" "NY"
                               "10001" "USA" 9 "2024-09-20" "11:00" "15:00"
                               "owner1@example.com" "")) ]
         store_A_confirmed) !! "A"
    = Some (Booking.with_status s
              (Booking.fields (bookingOn1 "A" driver2 "10:00" "12:00" confirmed))).
Proof.
  refine (booking_fields_kept _ store_A_confirmed "A" _ _ _ eq_refl).
  - vm_compute. repeat split.
  - repeat constructor; intros u; discriminate.
Defined.

(** ** Status writes *)

Lemma status_write_insert (e : Env) (db : gmap string Booking.data)
    (k : string) (s : Status) (d : Booking.data) :
  writeOk e k = true -> db !! k = Some d ->
  updateBookingStatusInFirestore e db k s
  = Some (<[k := Booking.with_status s d]> db).
Proof.
  intros Hw Hd. rewrite (updateBookingStatus_ok _ _ _ _ _ Hw Hd). f_equal.
  apply map_eq. intros j. rewrite lookup_alter, lookup_insert.
  case_decide; [by subst; rewrite Hd | done].
Qed.

(** [denyBooking], [cancelBookingByUser] and [cancelBookingByOwner] do
    not look at the current status, nor at any field of the booking they
    are given but its id: when the document exists and the write
    succeeds, its status becomes ['denied'], ['canceled_by_user'] or
    ['canceled_by_owner'] whatever it was, and nothing else changes. *)
Theorem status_writes_unconditional (e : Env) (u : User) (st : Store)
    (b : Booking.t) (d : Booking.data) :
  writeOk e (Booking.id b) = true ->
  bookings st !! Booking.id b = Some d ->
  user_email u <> "" ->
  (App.denyBooking e st b).1
  = mkStore (<[Booking.id b := Booking.with_status denied d]> (bookings st))
            (listings st)
  /\ (App.cancelBookingByUser e (Some u) st b).1
     = mkStore (<[Booking.id b := Booking.with_status canceled_by_user d]>
                  (bookings st)) (listings st)
  /\ (App.cancelBookingByOwner e st b).1
     = mkStore (<[Booking.id b := Booking.with_status canceled_by_owner d]>
                  (bookings st)) (listings st).
Proof.
  intros Hw Hd Hu. apply String.eqb_neq in Hu.
  unfold App.denyBooking, App.cancelBookingByUser, App.cancelBookingByOwner.
  rewrite Hu, !(status_write_insert _ _ _ _ _ Hw Hd). done.
Qed.

(** The confirmed booking A is denied by [denyBooking]. *)
Lemma status_writes_unconditional_witness :
  bookings
    (App.denyBooking (calm "") store_A_confirmed
       (bookingOn1 "A" driver2 "10:00" "12:00" confirmed)).1 !! "A"
  = Some (Booking.fields (bookingOn1 "A" driver2 "10:00" "12:00" denied)).
Proof.
  pose proof (status_writes_unconditional (calm "") driver2 store_A_confirmed
                (bookingOn1 "A" driver2 "10:00" "12:00" confirmed)
                (Booking.fields (bookingOn1 "A" driver2 "10:00" "12:00" confirmed))
                eq_refl eq_refl ltac:(discriminate)) as [H _].
  rewrite H. apply lookup_insert_eq.
Defined.

(** A status operation on a booking whose document is no longer in the
    store changes nothing and ends with an error toast, without
    rejecting. *)
Theorem status_write_on_missing_document (e : Env) (u : option User)
    (st : Store) (b : Booking.t) :
  bookings st !! Booking.id b = None ->
  (App.approveBooking e st b).1 = st
  /\ statusFailed (App.approveBooking e st b).2
  /\ (App.denyBooking e st b).1 = st
  /\ statusFailed (App.denyBooking e st b).2
  /\ (App.cancelBookingByUser e u st b).1 = st
  /\ statusFailed (App.cancelBookingByUser e u st b).2
  /\ (App.cancelBookingByOwner e st b).1 = st
  /\ statusFailed (App.cancelBookingByOwner e st b).2.
Proof.
  intros Hn.
  assert (Hu : forall s,
             updateBookingStatusInFirestore e (bookings st) (Booking.id b) s = None).
  { intros s. unfold updateBookingStatusInFirestore. by rewrite Hn. }
  split; [| split].
  - destruct (approveBooking_scan e st b) as [[_ ->] | [_ ->]]; [done |].
    by rewrite Hu.
  - destruct (approveBooking_scan e st b) as [[_ ->] | [_ ->]]; [done |].
    by rewrite Hu.
  - unfold App.denyBooking, App.cancelBookingByUser, App.cancelBookingByOwner.
    rewrite !Hu. destruct u as [u |]; [| done].
    by destruct (String.eqb (user_email u) "").
Qed.

Lemma status_write_on_missing_document_witness :
  (App.denyBooking (calm "") store0
     (bookingOn1 "A" driver2 "10:00" "12:00" pending)).1 = store0.
Proof.
  pose proof (status_write_on_missing_document (calm "") None store0
                (bookingOn1 "A" driver2 "10:00" "12:00" pending) eq_refl)
    as (_ & _ & H & _).
  exact H.
Defined.



(** ** Listing updates *)

Lemma updateListing_cascade_padded_witness :
  bookings
    (App.updateListing (calm "") (Some owner1) store_AB "1"
       (listing1_as "2024-09-20" "09:00" "12:00")).1 !! "B"
  = Some (Booking.fields
            (bookingOn1 "B" driver3 "11:00" "13:00" canceled_by_owner)).
Proof.
  exact (updateListing_cascade_padded (calm "") owner1 store_AB "1"
           (listing1_as "2024-09-20" "09:00" "12:00") "B"
           (Booking.fields (bookingOn1 "B" driver3 "11:00" "13:00" pending))
           660 780 540 720 eq_refl eq_refl eq_refl eq_refl eq_refl
           (or_introl eq_refl)
           (PaddedTime_intro "1" "1" "0" "0" eq_refl eq_refl eq_refl eq_refl
              ltac:(vm_compute; discriminate) ltac:(vm_compute; discriminate))
           (PaddedTime_intro "1" "3" "0" "0" eq_refl eq_refl eq_refl eq_refl
              ltac:(vm_compute; discriminate) ltac:(vm_compute; discriminate))
           (PaddedTime_intro "0" "9" "0" "0" eq_refl eq_refl eq_refl eq_refl
              ltac:(vm_compute; discriminate) ltac:(vm_compute; discriminate))
           (PaddedTime_intro "1" "2" "0" "0" eq_refl eq_refl eq_refl eq_refl
              ltac:(vm_compute; discriminate) ltac:(vm_compute; discriminate))).
Defined.

(** [updateListing] cancels before it writes the listing and does not
    undo: when the listing document is missing or its write fails, the
    call rejects and the listings are as before, but the bookings the
    loop has canceled stay canceled. *)
Theorem updateListing_failure_keeps_cancellations (e : Env) (u : User)
    (st : Store) (listingId : string) (listingData : Listing.input)
    (k : string) (d : Booking.data) :
  queryOk e = true -> writeOk e k = true ->
  listings st !! listingId = None \/ writeOk e listingId = false ->
  bookings st !! k = Some d ->
  Booking.listingId d = listingId ->
  Booking.date d = Listing.date listingData ->
  App.listingConflict listingData d && isActive d = true ->
  let r := App.updateListing e (Some u) st listingId listingData in
  bookings r.1 !! k = Some (Booking.with_status canceled_by_owner d)
  /\ listings r.1 = listings st
  /\ r.2 = listingUpdateFailed.
Proof.
  intros Hq Hw Hfail Hd Hl Hdt Hc r.
  pose proof (updateListing_cascade e u st listingId listingData k d
                Hq Hw Hd Hl Hdt) as Hk.
  rewrite Hc in Hk. subst r. split; [exact Hk |].
  unfold App.updateListing, updateListingInFirestore.
  rewrite cascade_listings.
  destruct Hfail as [-> | Hf]; simpl; [by rewrite cascade_listings |].
  destruct (listings st !! listingId); rewrite ?Hf; simpl;
    by rewrite cascade_listings.
Qed.

(** The listings collection is empty: the update of listing 1 rejects,
    and the pending booking B, fetched under that id, is canceled all the
    same. *)
Lemma updateListing_failure_keeps_cancellations_witness :
  let r := App.updateListing (calm "") (Some owner1)
             (mkStore (bookings store_AB) ∅) "1"
             (listing1_as "2024-09-20" "09:00" "12:00") in
  bookings r.1 !! "B"
  = Some (Booking.fields
            (bookingOn1 "B" driver3 "11:00" "13:00" canceled_by_owner))
  /\ listings r.1 = ∅
  /\ r.2 = listingUpdateFailed.
Proof.
  exact (updateListing_failure_keeps_cancellations (calm "") owner1
           (mkStore (bookings store_AB) ∅) "1"
           (listing1_as "2024-09-20" "09:00" "12:00") "B"
           (Booking.fields (bookingOn1 "B" driver3 "11:00" "13:00" pending))
           eq_refl eq_refl (or_introl eq_refl) eq_refl eq_refl eq_refl eq_refl).
Defined.

Lemma cascade_is_Some (e : Env) (l : Listing.input) (bs : list Booking.t)
    (st : Store) (k : string) :
  is_Some (bookings (foldl (App.cancelIfConflict e l) st bs) !! k)
  <-> is_Some (bookings st !! k).
Proof.
  destruct (cascade_lookup_cases e l bs st k) as [-> | (d & -> & ->)]; [done |].
  split; eauto.
Qed.

(** A successful [updateListing] replaces the submitted fields of the
    one listing and keeps its owner, whoever is logged in: the owner is
    not compared with the current user. No booking document is added or
    removed. *)
Theorem updateListing_keeps_owner (e : Env) (u : User) (st : Store)
    (listingId : string) (listingData : Listing.input) (old : Listing.data) :
  listings st !! listingId = Some old ->
  writeOk e listingId = true ->
  let r := App.updateListing e (Some u) st listingId listingData in
  listings r.1
  = <[listingId := Listing.mkData (Listing.ownerId old) listingData]> (listings st)
  /\ r.2 = listingUpdated
  /\ (forall k, is_Some (bookings r.1 !! k) <-> is_Some (bookings st !! k)).
Proof.
  intros Hold Hw r. subst r. unfold App.updateListing, updateListingInFirestore.
  rewrite cascade_listings, Hold, Hw. simpl.
  split; [done |]. split; [done |]. intros k. apply cascade_is_Some.
Qed.

(** A driver edits the listing of owner 1: the listing is changed and
    still belongs to owner 1. *)
Lemma updateListing_keeps_owner_witness :
  listings
    (App.updateListing (calm "") (Some driver2) store0 "1"
       (listing1_as "2024-09-22" "08:00" "09:00")).1 !! "1"
  = Some (Listing.mkData "user-1" (listing1_as "2024-09-22" "08:00" "09:00")).
Proof.
  pose proof (updateListing_keeps_owner (calm "") driver2 store0 "1"
                (listing1_as "2024-09-22" "08:00" "09:00")
                (Listing.fields listing1) eq_refl eq_refl) as [H _].
  rewrite H. apply lookup_insert_eq.
Defined.

(** ** New listings *)

Lemma addListing_padded_witness :
  App.addListing (calm "2") (Some owner1) store0
    (listing1_as "2024-09-20" "16:00" "18:00")
  = (store0, listingDuplicate).
Proof.
  refine (proj1 (addListing_padded (calm "2") owner1 store0
                   (listing1_as "2024-09-20" "16:00" "18:00") 960 1080
                   eq_refl eq_refl
                   (PaddedTime_intro "1" "6" "0" "0" eq_refl eq_refl eq_refl eq_refl
                      ltac:(vm_compute; discriminate) ltac:(vm_compute; discriminate))
                   (PaddedTime_intro "1" "8" "0" "0" eq_refl eq_refl eq_refl eq_refl
                      ltac:(vm_compute; discriminate) ltac:(vm_compute; discriminate))
                   _) _).
  - intros k d Hl _.
    change (({[ "1" := Listing.fields listing1 ]} : gmap string Listing.data) !! k
            = Some d) in Hl.
    apply lookup_singleton_Some in Hl as [_ <-].
    exists 540, 1020. split.
    + exact (PaddedTime_intro "0" "9" "0" "0" eq_refl eq_refl eq_refl eq_refl
               ltac:(vm_compute; discriminate) ltac:(vm_compute; discriminate)).
    + exact (PaddedTime_intro "1" "7" "0" "0" eq_refl eq_refl eq_refl eq_refl
               ltac:(vm_compute; discriminate) ltac:(vm_compute; discriminate)).
  - exists "1", (Listing.fields listing1), 540, 1020.
    split; [reflexivity |]. split; [repeat split |]. split.
    + exact (PaddedTime_intro "0" "9" "0" "0" eq_refl eq_refl eq_refl eq_refl
               ltac:(vm_compute; discriminate) ltac:(vm_compute; discriminate)).
    + split; [| lia].
      exact (PaddedTime_intro "1" "7" "0" "0" eq_refl eq_refl eq_refl eq_refl
               ltac:(vm_compute; discriminate) ltac:(vm_compute; discriminate)).
Defined.

(** When the query for existing listings fails,
    [checkForExistingListing] answers the empty list and [addListing]
    inserts the listing without the duplicate test, for the current user
    as owner, also when the very same listing is already there. *)
Theorem addListing_unchecked_when_query_fails (e : Env) (u : User) (st : Store)
    (listingData : Listing.input) :
  queryOk e = false -> writeOk e (newId e) = true ->
  App.addListing e (Some u) st listingData
  = (mkStore (bookings st)
       (<[newId e := Listing.mkData (user_id u) listingData]> (listings st)),
     if emailOk e then listingAdded else listingFailed).
Proof.
  intros Hq Hw. unfold App.addListing, checkForExistingListing, addListingToFirestore.
  rewrite Hq, Hw. reflexivity.
Qed.

Lemma addListing_unchecked_when_query_fails_witness :
  listings (App.addListing (blind "2") (Some owner1) store0 listing1_input).1 !! "2"
  = Some (Listing.fields listing1).
Proof.
  rewrite (addListing_unchecked_when_query_fails (blind "2") owner1 store0
             listing1_input eq_refl eq_refl).
  apply lookup_insert_eq.
Defined.

Lemma addListing_frame (e : Env) (u : option User) (st : Store)
    (l : Listing.input) (k : string) :
  bookings (App.addListing e u st l).1 = bookings st
  /\ (k <> newId e -> listings (App.addListing e u st l).1 !! k = listings st !! k).
Proof.
  unfold App.addListing, addListingToFirestore. destruct u as [u |]; [| done].
  match goal with |- context [existsb ?f ?l] => destruct (existsb f l) end;
    [done |].
  destruct (writeOk e (newId e)); simpl; [| done].
  split; [done |]. intros Hk. by apply lookup_insert_ne.
Qed.

(** The form's [onSubmit]: with the id of an edited listing the call
    never adds or removes a listing document; without an id, or with an
    empty one, it never touches a booking nor any listing but the one
    under the newly assigned id. *)
Theorem handleFormSubmit_dispatch (e : Env) (u : option User) (st : Store)
    (listingData : Listing.input) (id : option string) (k : string) :
  (forall i, id = Some i -> i <> "" ->
     is_Some (listings (ProfileView.handleFormSubmit e u st listingData id).1 !! k)
     <-> is_Some (listings st !! k))
  /\ (id = None \/ id = Some "" ->
      bookings (ProfileView.handleFormSubmit e u st listingData id).1 = bookings st
      /\ (k <> newId e ->
          listings (ProfileView.handleFormSubmit e u st listingData id).1 !! k
          = listings st !! k)).
Proof.
  split.
  - intros i -> Hi. unfold ProfileView.handleFormSubmit.
    apply String.eqb_neq in Hi. rewrite Hi.
    unfold App.updateListing, updateListingInFirestore. destruct u as [u |]; [| done].
    rewrite cascade_listings.
    destruct (listings st !! i) as [old |] eqn:Hold;
      [| simpl; by rewrite cascade_listings].
    destruct (writeOk e i); simpl; [| by rewrite cascade_listings].
    rewrite lookup_insert. case_decide; [subst k | done].
    rewrite Hold. split; eauto.
  - intros [-> | ->]; unfold ProfileView.handleFormSubmit; simpl;
      apply addListing_frame.
Qed.

Lemma handleFormSubmit_dispatch_witness :
  is_Some
    (listings
       (ProfileView.handleFormSubmit (calm "7") (Some owner1) store0
          (listing1_as "2024-09-22" "08:00" "09:00") (Some "1")).1 !! "7")
  <-> is_Some (listings store0 !! "7").
Proof.
  exact (proj1 (handleFormSubmit_dispatch (calm "7") (Some owner1) store0
                  (listing1_as "2024-09-22" "08:00" "09:00") (Some "1") "7")
           "1" eq_refl ltac:(discriminate)).
Defined.

(** ** The owner's list of requests *)

(** [getBookingRequestsForOwner], when its query is answered, hands out
    exactly the stored bookings of the owner that are pending, each once;
    every one of them is a snapshot of its document. *)
Theorem getBookingRequestsForOwner_exact (e : Env) (st : Store)
    (owner : string) :
  queryOk e = true ->
  (forall r,
      r ∈ getBookingRequestsForOwner e (bookings st) owner
      <-> bookings st !! Booking.id r = Some (Booking.fields r)
          /\ Booking.ownerId (Booking.fields r) = owner
          /\ Booking.status (Booking.fields r) = pending)
  /\ NoDup (Booking.id <$> getBookingRequestsForOwner e (bookings st) owner)
  /\ (forall r,
         r ∈ getBookingRequestsForOwner e (bookings st) owner -> snapshot st r).
Proof.
  intros Hq.
  assert (Hiff : forall r,
             r ∈ getBookingRequestsForOwner e (bookings st) owner
             <-> bookings st !! Booking.id r = Some (Booking.fields r)
                 /\ Booking.ownerId (Booking.fields r) = owner
                 /\ Booking.status (Booking.fields r) = pending).
  { intros r. split; [apply elem_of_getBookingRequestsForOwner |].
    intros (Hl & Ho & Hs). unfold getBookingRequestsForOwner. rewrite Hq.
    apply list_elem_of_fmap. exists (Booking.id r, Booking.fields r). split.
    - by destruct r.
    - apply elem_of_map_to_list, map_lookup_filter_Some. simpl. auto. }
  split; [exact Hiff |]. split.
  - unfold getBookingRequestsForOwner. rewrite Hq.
    rewrite <- list_fmap_compose. apply NoDup_fst_map_to_list.
  - intros r Hr. apply Hiff in Hr as (Hl & _). unfold snapshot. rewrite Hl.
    apply with_status_same.
Qed.

Lemma getBookingRequestsForOwner_exact_witness :
  bookingOn1 "B" driver3 "11:00" "13:00" pending
  ∈ getBookingRequestsForOwner (calm "") (bookings store_AB) "user-1".
Proof.
  apply (proj1 (getBookingRequestsForOwner_exact (calm "") store_AB "user-1"
                  eq_refl)).
  repeat split.
Defined.

(** Only [requestBooking] makes a booking pending, and only under the
    id [addDoc] assigns. *)
Lemma run_notPending (e : Env) (op : Op) (st : Store) (k : string) :
  notReassigned k (e, op) ->
  notPending (bookings st) k -> notPending (bookings (run e op st)) k.
Proof.
  intros Hn Hp d' Hd'.
  destruct (run_lookup_cases e op st k)
    as [H | [(s & d & Hd & H & Hs) | [[H _] | (d & H & Hreq)]]].
  - rewrite H in Hd'. by apply (Hp d').
  - rewrite H in Hd'. by injection Hd' as <-.
  - congruence.
  - destruct Hreq as (u & l & s & t & a & b & -> & -> & _). by destruct Hn.
Qed.

Lemma runAll_notPending (tr : list (Env * Op)) (st : Store) (k : string) :
  Forall (notReassigned k) tr ->
  notPending (bookings st) k -> notPending (bookings (runAll tr st)) k.
Proof.
  revert st. induction tr as [| [e op] tr IH]; intros st Hn Hp; simpl; [done |].
  apply Forall_cons in Hn as [Hn Hns]. apply IH; [done |].
  by apply run_notPending.
Qed.

(** A request the owner has decided leaves the list of requests for
    good: after a denial whose write succeeded, and after an approval
    that ended with the success toast, no query for requests returns the
    booking, neither at once nor after any further sequence of
    operations, whatever fails in them, as long as [addDoc] does not
    assign the id of the booking again. *)
Theorem decided_request_leaves_list (e e' : Env) (st : Store) (b : Booking.t)
    (d : Booking.data) (tr : list (Env * Op)) (owner : string) (r : Booking.t) :
  writeOk e (Booking.id b) = true ->
  bookings st !! Booking.id b = Some d ->
  Forall (notReassigned (Booking.id b)) tr ->
  (r ∈ getBookingRequestsForOwner e'
         (bookings (runAll tr (App.denyBooking e st b).1)) owner ->
   Booking.id r <> Booking.id b)
  /\ ((App.approveBooking e st b).2 = approvalDone ->
      r ∈ getBookingRequestsForOwner e'
            (bookings (runAll tr (App.approveBooking e st b).1)) owner ->
      Booking.id r <> Booking.id b).
Proof.
  intros Hw Hd Htr.
  assert (Hlist : forall st',
             notPending (bookings st') (Booking.id b) ->
             r ∈ getBookingRequestsForOwner e' (bookings (runAll tr st')) owner ->
             Booking.id r <> Booking.id b).
  { intros st' Hp Hr Heq.
    apply elem_of_getBookingRequestsForOwner in Hr as (Hl & _ & Hs).
    rewrite Heq in Hl. by apply (runAll_notPending tr st' _ Htr Hp _ Hl). }
  split.
  - apply Hlist. intros d'. unfold App.denyBooking.
    rewrite (status_write_insert _ _ _ _ _ Hw Hd). simpl.
    rewrite lookup_insert_eq. by intros [= <-].
  - intros Hdone. apply Hlist. intros d'.
    destruct (approveBooking_scan e st b) as [[_ Ha] | [_ Ha]];
      rewrite Ha in Hdone |- *; [discriminate Hdone |].
    rewrite (status_write_insert _ _ _ _ _ Hw Hd). simpl.
    rewrite lookup_insert_eq. by intros [= <-].
Qed.

(** A is denied; then its approval is tried while the store refuses the
    write, C is requested and A is approved: A is in no list of
    requests. *)
Lemma decided_request_leaves_list_witness :
  ~ bookingOn1 "A" driver2 "10:00" "12:00" pending
    ∈ getBookingRequestsForOwner (calm "")
        (bookings
           (runAll
              [ (mkEnv true (λ _, false) true "" 0,
                 ApproveBooking (bookingOn1 "A" driver2 "10:00" "12:00" pending));
                (calm "C", RequestBooking (Some driver3) listing1 "13:00" "14:00");
                (calm "", ApproveBooking
                            (bookingOn1 "A" driver2 "10:00" "12:00" pending)) ]
              (App.denyBooking (calm "") store_A_requested
                 (bookingOn1 "A" driver2 "10:00" "12:00" pending)).1)) "user-1".
Proof.
  intros H.
  refine (proj1 (decided_request_leaves_list (calm "") (calm "") store_A_requested
                   (bookingOn1 "A" driver2 "10:00" "12:00" pending)
                   (Booking.fields (bookingOn1 "A" driver2 "10:00" "12:00" pending))
                   _ "user-1" (bookingOn1 "A" driver2 "10:00" "12:00" pending)
                   eq_refl eq_refl _) H eq_refl).
  repeat constructor. discriminate.
Defined.

(** ** Deletion and the booking card *)

(** For a logged-in user and a store that answers, [deleteBooking]
    ends with the success toast, the document is gone, and nothing else
    has changed; deleting the same id once more succeeds again and
    changes nothing. *)
Theorem deleteBooking_only_that_booking (e : Env) (u : User) (st : Store)
    (k : string) :
  writeOk e k = true ->
  let r := App.deleteBooking e (Some u) st k in
  r.2 = bookingDeleted
  /\ bookings r.1 !! k = None
  /\ (forall j, j <> k -> bookings r.1 !! j = bookings st !! j)
  /\ listings r.1 = listings st
  /\ App.deleteBooking e (Some u) r.1 k = (r.1, bookingDeleted).
Proof.
  intros Hw r. subst r. unfold App.deleteBooking, deleteBookingFromFirestore.
  rewrite Hw. simpl. split; [done |]. split; [apply lookup_delete_eq |].
  split; [| split; [done |]].
  - intros j Hj. by apply lookup_delete_ne.
  - f_equal. f_equal. apply map_eq. intros j. rewrite !lookup_delete.
    by case_decide.
Qed.

Lemma deleteBooking_only_that_booking_witness :
  bookings store_AB !! "B"
  = Some (Booking.fields (bookingOn1 "B" driver3 "11:00" "13:00" pending))
  /\ bookings (App.deleteBooking (calm "") (Some driver3) store_AB "B").1 !! "B"
     = None
  /\ bookings (App.deleteBooking (calm "") (Some driver3) store_AB "B").1 !! "A"
     = bookings store_AB !! "A".
Proof.
  pose proof (deleteBooking_only_that_booking (calm "") driver3 store_AB "B"
                eq_refl) as (_ & Hgone & Hframe & _).
  split; [by vm_compute |]. split; [exact Hgone |].
  exact (Hframe "A" ltac:(discriminate)).
Defined.

(** Every booking card shows exactly one of the two buttons: the
    cancel button for ['pending'] and ['confirmed'], the delete button
    for the three other statuses. *)
Theorem card_shows_one_button (booking : Booking.t) :
  ProfileView.canCancel booking = negb (ProfileView.canDelete booking).
Proof.
  unfold ProfileView.canCancel, ProfileView.canDelete.
  destruct booking as [i [? ? ? ? ? ? ? ? ? ? ? s ?]]. simpl.
  destruct s; reflexivity.
Qed.

(** ** The confirmation modal *)

Lemma handleConfirmClick_cases
    (onConfirm : string -> string -> Store * Outcome) (st : Store)
    (listing : Listing.t) (startTime endTime : string) :
  (windowAccepted listing startTime endTime ->
   ConfirmationModal.handleConfirmClick onConfirm st listing startTime endTime
   = ((onConfirm startTime endTime).1,
      if thrown (onConfirm startTime endTime).2 then Some modalUnexpected
      else None))
  /\ (~ windowAccepted listing startTime endTime ->
      exists validationError,
        ConfirmationModal.handleConfirmClick onConfirm st listing startTime endTime
        = (st, Some validationError)
        /\ validationError <> modalUnexpected).
Proof.
  unfold windowAccepted, ConfirmationModal.handleConfirmClick, num_ge, num_gt, num_lt.
  minutes_cases (ConfirmationModal.timeToMinutes startTime) as a eqn:Ha.
  { split; [by intros (? & ? & ? & _) |].
    intros _. eexists. split; [reflexivity | discriminate]. }
  minutes_cases (ConfirmationModal.timeToMinutes endTime) as b eqn:Hb.
  { split; [by intros (? & ? & _ & ? & _) |].
    intros _. eexists. split; [reflexivity | discriminate]. }
  simpl. destruct (Z.leb_spec b a) as [Hle | Hlt].
  { split; [intros (a' & b' & [= <-] & [= <-] & ? & _); lia |].
    intros _. eexists. split; [reflexivity | discriminate]. }
  minutes_cases (ConfirmationModal.timeToMinutes
                   (Listing.startTime (Listing.details (Listing.fields listing))))
    as ls eqn:Hls;
    minutes_cases (ConfirmationModal.timeToMinutes
                     (Listing.endTime (Listing.details (Listing.fields listing))))
      as le eqn:Hle'; simpl.
  - split; [done |]. intros Hn. destruct Hn. exists a, b. by repeat split.
  - destruct (Z.ltb_spec le b).
    + split; [intros (a' & b' & [= <-] & [= <-] & _ & _ & H2);
              specialize (H2 _ eq_refl); lia |].
      intros _. eexists. split; [reflexivity | discriminate].
    + split; [done |]. intros Hn. destruct Hn. exists a, b.
      repeat split; try done. by intros ? [= <-].
  - destruct (Z.ltb_spec a ls).
    + split; [intros (a' & b' & [= <-] & [= <-] & _ & H1 & _);
              specialize (H1 _ eq_refl); lia |].
      intros _. eexists. split; [reflexivity | discriminate].
    + split; [done |]. intros Hn. destruct Hn. exists a, b.
      repeat split; try done. by intros ? [= <-].
  - destruct (Z.ltb_spec a ls); simpl.
    + split; [intros (a' & b' & [= <-] & [= <-] & _ & H1 & _);
              specialize (H1 _ eq_refl); lia |].
      intros _. eexists. split; [reflexivity | discriminate].
    + destruct (Z.ltb_spec le b).
      * split; [intros (a' & b' & [= <-] & [= <-] & _ & _ & H2);
                specialize (H2 _ eq_refl); lia |].
        intros _. eexists. split; [reflexivity | discriminate].
      * split; [done |]. intros Hn. destruct Hn. exists a, b.
        repeat split; try done; by intros ? [= <-].
Qed.

(** The modal sends the request exactly when the window is accepted:
    then [onConfirm] runs with the two times as typed, and the modal
    closes unless [onConfirm] rejects; otherwise [onConfirm] is not run,
    the store is as before and a validation error is shown. *)
Theorem handleConfirmClick_sends_iff_accepted
    (onConfirm : string -> string -> Store * Outcome) (st : Store)
    (listing : Listing.t) (startTime endTime : string) :
  (windowAccepted listing startTime endTime ->
   ConfirmationModal.handleConfirmClick onConfirm st listing startTime endTime
   = ((onConfirm startTime endTime).1,
      if thrown (onConfirm startTime endTime).2 then Some modalUnexpected
      else None))
  /\ (~ windowAccepted listing startTime endTime ->
      exists validationError,
        ConfirmationModal.handleConfirmClick onConfirm st listing startTime endTime
        = (st, Some validationError)
        /\ validationError <> modalUnexpected).
Proof. apply handleConfirmClick_cases. Qed.

Lemma windowAccepted_10_12 : windowAccepted listing1 "10:00" "12:00".
Proof.
  exists 600, 720. repeat split; try lia.
  - intros ls H. vm_compute in H. injection H as <-. lia.
  - intros le H. vm_compute in H. injection H as <-. lia.
Qed.

Lemma handleConfirmClick_sends_iff_accepted_witness :
  ConfirmationModal.handleConfirmClick
    (ListingCard.handleConfirmBooking
       (App.requestBooking (calm "A") (Some driver2) store0) listing1)
    store0 listing1 "10:00" "12:00"
  = (store_A_requested, None).
Proof.
  rewrite (proj1 (handleConfirmClick_sends_iff_accepted
                    (ListingCard.handleConfirmBooking
                       (App.requestBooking (calm "A") (Some driver2) store0) listing1)
                    store0 listing1 "10:00" "12:00") windowAccepted_10_12).
  reflexivity.
Defined.

(** A window the modal accepts is never turned down by [requestBooking]
    for its format: for a logged-in user and a store that accepts the
    insertion the booking is stored with the times as typed, and when
    the listing's own times are times of the day the stored window starts
    before it ends and lies within the listing's window. *)
Theorem accepted_window_is_stored (e : Env) (u : User) (st : Store)
    (listing : Listing.t) (startTime endTime : string) :
  windowAccepted listing startTime endTime ->
  user_email u <> "" ->
  writeOk e (newId e) = true ->
  let r := ConfirmationModal.handleConfirmClick
             (ListingCard.handleConfirmBooking
                (App.requestBooking e (Some u) st) listing)
             st listing startTime endTime in
  bookings r.1 !! newId e = Some (requestedBooking e u listing startTime endTime)
  /\ r.2 = (if emailOk e then None else Some modalUnexpected)
  /\ (forall ls le,
         App.timeToMinutes
           (Listing.startTime (Listing.details (Listing.fields listing))) = Int ls ->
         App.timeToMinutes
           (Listing.endTime (Listing.details (Listing.fields listing))) = Int le ->
         exists a b,
           App.timeToMinutes startTime = Int a
           /\ App.timeToMinutes endTime = Int b
           /\ ls <= a /\ a < b /\ b <= le).
Proof.
  intros Hacc Hu Hw r. subst r.
  rewrite (proj1 (handleConfirmClick_cases _ st listing startTime endTime) Hacc).
  destruct Hacc as (a & b & Ha & Hb & Hlt & H1 & H2).
  unfold ListingCard.handleConfirmBooking.
  rewrite (requestBooking_run e u st listing startTime endTime a b Hu Ha Hb Hw).
  simpl. split; [apply lookup_insert_eq |]. split; [by destruct (emailOk e) |].
  intros ls le Hls Hle. exists a, b. repeat split; try done.
  - by apply H1.
  - by apply H2.
Qed.

Lemma accepted_window_is_stored_witness :
  bookings
    (ConfirmationModal.handleConfirmClick
       (ListingCard.handleConfirmBooking
          (App.requestBooking (calm "A") (Some driver2) store0) listing1)
       store0 listing1 "10:00" "12:00").1 !! "A"
  = Some (Booking.fields (bookingOn1 "A" driver2 "10:00" "12:00" pending)).
Proof.
  exact (proj1 (accepted_window_is_stored (calm "A") driver2 store0 listing1
                  "10:00" "12:00" windowAccepted_10_12 ltac:(discriminate)
                  eq_refl)).
Defined.

(** A bound of the listing that is not a time of the day is not
    enforced by the modal: for a listing neither of whose times parses,
    every window of two times of the day with the start before the end
    is sent on. *)
Theorem unparseable_listing_window_not_enforced
    (onConfirm : string -> string -> Store * Outcome) (st : Store)
    (listing : Listing.t) (startTime endTime : string) (a b : Z) :
  ConfirmationModal.timeToMinutes
    (Listing.startTime (Listing.details (Listing.fields listing))) = NaN ->
  ConfirmationModal.timeToMinutes
    (Listing.endTime (Listing.details (Listing.fields listing))) = NaN ->
  ConfirmationModal.timeToMinutes startTime = Int a ->
  ConfirmationModal.timeToMinutes endTime = Int b ->
  a < b ->
  ConfirmationModal.handleConfirmClick onConfirm st listing startTime endTime
  = ((onConfirm startTime endTime).1,
     if thrown (onConfirm startTime endTime).2 then Some modalUnexpected
     else None).
Proof.
  intros Hls Hle Ha Hb Hlt. apply handleConfirmClick_cases.
  exists a, b. repeat split; try done; intros ? H; congruence.
Qed.

(** A listing from 25:00 to 26:00: a request from 00:00 to 23:59 is
    sent on. *)
Lemma unparseable_listing_window_not_enforced_witness :
  (ConfirmationModal.handleConfirmClick
     (ListingCard.handleConfirmBooking
        (App.requestBooking (calm "A") (Some driver2) store0)
        (Listing.mk "9" (Listing.mkData "user-1"
                           (listing1_as "2024-09-20" "25:00" "26:00"))))
     store0
     (Listing.mk "9" (Listing.mkData "user-1"
                        (listing1_as "2024-09-20" "25:00" "26:00")))
     "00:00" "23:59").2 = None.
Proof.
  rewrite (unparseable_listing_window_not_enforced _ store0
             (Listing.mk "9" (Listing.mkData "user-1"
                                (listing1_as "2024-09-20" "25:00" "26:00")))
             "00:00" "23:59" 0 1439 eq_refl eq_refl eq_refl eq_refl ltac:(lia)).
  reflexivity.
Defined.

(** ** The listing form *)

Lemma requiredFilled_test (f : ListingForm.FormState) :
  requiredFilled f ->
  String.eqb (ListingForm.address f) "" || String.eqb (ListingForm.city f) ""
  || String.eqb (ListingForm.state f) "" || String.eqb (ListingForm.zipCode f) ""
  || String.eqb (ListingForm.country f) "" || String.eqb (ListingForm.rate f) ""
  || String.eqb (ListingForm.date f) "" || String.eqb (ListingForm.startTime f) ""
  || String.eqb (ListingForm.endTime f) ""
  || String.eqb (ListingForm.contactEmail f) "" = false.
Proof.
  intros (H1 & H2 & H3 & H4 & H5 & H6 & H7 & H8 & H9 & H10).
  apply String.eqb_neq in H1, H2, H3, H4, H5, H6, H7, H8, H9, H10.
  by rewrite H1, H2, H3, H4, H5, H6, H7, H8, H9, H10.
Qed.

Lemma requiredFilled_test_inv (f : ListingForm.FormState) :
  String.eqb (ListingForm.address f) "" || String.eqb (ListingForm.city f) ""
  || String.eqb (ListingForm.state f) "" || String.eqb (ListingForm.zipCode f) ""
  || String.eqb (ListingForm.country f) "" || String.eqb (ListingForm.rate f) ""
  || String.eqb (ListingForm.date f) "" || String.eqb (ListingForm.startTime f) ""
  || String.eqb (ListingForm.endTime f) ""
  || String.eqb (ListingForm.contactEmail f) "" = false ->
  requiredFilled f.
Proof.
  rewrite !orb_false_iff. intros H. unfold requiredFilled.
  repeat match goal with
         | H : _ /\ _ |- _ => destruct H
         | H : String.eqb _ _ = false |- _ => apply String.eqb_neq in H
         end.
  auto 12.
Qed.

(** The two comparisons of the form, read backwards. *)
Lemma num_eq_false (x : number) (z : Z) : num_eq x (Int z) = false <-> x <> Int z.
Proof.
  destruct x as [| y | n]; simpl; [done | | done].
  destruct (Z.eqb_spec y z); split; congruence.
Qed.

Lemma num_ge_false (x y : number) :
  num_ge x y = false <-> num_lt x y = true \/ x = NaN \/ y = NaN.
Proof.
  destruct x as [| a | []], y as [| b | []]; simpl;
    try (split; [tauto | intros [? | [? | ?]]; congruence]);
    try (split; [discriminate | intros [? | [? | ?]]; congruence]).
  rewrite Z.leb_gt, Z.ltb_lt.
  split; [tauto | intros [? | [? | ?]]; [done | congruence | congruence]].
Qed.

(** Whatever [parseFloat] reads, [NaN] or a finite number, the form
    submits exactly when every required field holds some text, the rate
    parsed to a number above zero, neither time was read as the marker
    [-1] by the form's own parser, and the start was read below the end
    or one of the two readings is [NaN], for which the form has no test;
    the listing
    submitted carries the fields as typed and the id of the listing
    being edited. A reading of [NaN] exists: that of the overflowing
    time. *)
Theorem handleSubmit_sound :
  (forall (parseFloat : string -> option Q) (f : ListingForm.FormState)
          (initialData : option Listing.t) (l : Listing.input)
          (id : option string),
      ListingForm.handleSubmit parseFloat f initialData = ListingForm.Submit l id
      <-> requiredFilled f
          /\ (exists r,
                 parseFloat (ListingForm.rate f) = Some r /\ (0 < r)%Q
                 /\ l = listingOfForm f r)
          /\ id = Listing.id <$> initialData
          /\ ListingForm.timeToMinutes (ListingForm.startTime f) <> Int (-1)
          /\ ListingForm.timeToMinutes (ListingForm.endTime f) <> Int (-1)
          /\ (num_lt (ListingForm.timeToMinutes (ListingForm.startTime f))
                     (ListingForm.timeToMinutes (ListingForm.endTime f)) = true
              \/ ListingForm.timeToMinutes (ListingForm.startTime f) = NaN
              \/ ListingForm.timeToMinutes (ListingForm.endTime f) = NaN))
  /\ ListingForm.timeToMinutes overflowingTime = NaN.
Proof.
  split; [| apply ListingForm_timeToMinutes_overflow].
  intros parseFloat f initialData l id. unfold ListingForm.handleSubmit. split.
  - match goal with
    | |- context [if ?c then ListingForm.Invalid _ else _] => destruct c eqn:Hreq
    end; [discriminate |].
    apply requiredFilled_test_inv in Hreq.
    destruct (parseFloat (ListingForm.rate f)) as [r |] eqn:Hr; [| discriminate].
    destruct (Qle_bool r 0) eqn:Hpos; [discriminate |].
    destruct (num_eq (ListingForm.timeToMinutes (ListingForm.startTime f)) (Int (-1)))
      eqn:Hs; [discriminate |].
    destruct (num_eq (ListingForm.timeToMinutes (ListingForm.endTime f)) (Int (-1)))
      eqn:He; [discriminate |].
    destruct (num_ge (ListingForm.timeToMinutes (ListingForm.startTime f))
                     (ListingForm.timeToMinutes (ListingForm.endTime f)))
      eqn:Hge; [discriminate |].
    intros [= <- <-].
    apply num_eq_false in Hs, He. apply num_ge_false in Hge.
    split; [exact Hreq |]. split; [| by repeat split].
    exists r. repeat split; try reflexivity.
    apply Qnot_le_lt. intros Hle. apply Qle_bool_iff in Hle. congruence.
  - intros (Hreq & (r & Hr & Hpos & ->) & -> & Hs & He & Hlt).
    rewrite (requiredFilled_test f Hreq), Hr.
    destruct (Qle_bool r 0) eqn:Hle.
    { apply Qle_bool_iff in Hle. by apply Qlt_not_le in Hpos. }
    apply num_eq_false in Hs, He. apply num_ge_false in Hlt.
    rewrite Hs, He, Hlt. reflexivity.
Qed.

Lemma handleSubmit_sound_witness :
  requiredFilled (sampleForm "09:00" "17:00")
  /\ ListingForm.handleSubmit (λ _, Some 5%Q) (sampleForm overflowingTime "09:00")
       None
     = ListingForm.Submit (listingOfForm (sampleForm overflowingTime "09:00") 5)
         None.
Proof.
  destruct handleSubmit_sound as [Hiff Hnan]. split.
  - exact (proj1 (proj1 (Hiff (λ _, Some 5%Q) (sampleForm "09:00" "17:00") None
                           (listingOfForm (sampleForm "09:00" "17:00") 5) None)
                    eq_refl)).
  - apply (proj2 (Hiff (λ _, Some 5%Q) (sampleForm overflowingTime "09:00") None
                    (listingOfForm (sampleForm overflowingTime "09:00") 5) None)).
    split; [unfold requiredFilled; repeat split; discriminate |].
    split; [exists 5%Q; repeat split |]. split; [reflexivity |].
    split; [change (ListingForm.timeToMinutes overflowingTime <> Int (-1));
            rewrite Hnan; discriminate |].
    split; [discriminate |].
    right. left. exact Hnan.
Defined.

(** The form has no range test: with the required fields filled and a
    rate above zero, two well-formed times are submitted whenever hour
    times sixty plus minute is smaller for the start than for the end,
    whatever the hours and minutes are. *)
Theorem handleSubmit_accepts_any_range (parseFloat : string -> option Q)
    (f : ListingForm.FormState) (initialData : option Listing.t)
    (r : Q) (h m h' m' : Z) :
  requiredFilled f ->
  parseFloat (ListingForm.rate f) = Some r -> (0 < r)%Q ->
  TimeString (ListingForm.startTime f) h m ->
  TimeString (ListingForm.endTime f) h' m' ->
  h * 60 + m < h' * 60 + m' ->
  ListingForm.handleSubmit parseFloat f initialData
  = ListingForm.Submit (listingOfForm f r) (Listing.id <$> initialData).
Proof.
  intros Hreq Hr Hpos Hs He Hlt. unfold ListingForm.handleSubmit.
  rewrite (requiredFilled_test f Hreq), Hr.
  destruct (Qle_bool r 0) eqn:Hle.
  { apply Qle_bool_iff in Hle. by apply Qlt_not_le in Hpos. }
  rewrite (ListingForm_timeToMinutes_TimeString _ _ _ Hs),
          (ListingForm_timeToMinutes_TimeString _ _ _ He).
  pose proof (TimeString_nonneg _ _ _ Hs). pose proof (TimeString_nonneg _ _ _ He).
  unfold num_eq, num_ge.
  destruct (Z.eqb_spec (h * 60 + m) (-1)); [lia |].
  destruct (Z.eqb_spec (h' * 60 + m') (-1)); [lia |].
  destruct (Z.leb_spec (h' * 60 + m') (h * 60 + m)); [lia |].
  reflexivity.
Qed.

Lemma handleSubmit_accepts_any_range_witness :
  ListingForm.handleSubmit (λ _, Some 5%Q) (sampleForm "25:00" "26:75") None
  = ListingForm.Submit (listingOfForm (sampleForm "25:00" "26:75") 5) None.
Proof.
  refine (handleSubmit_accepts_any_range (λ _, Some 5%Q)
            (sampleForm "25:00" "26:75") None 5 25 0 26 75 _ eq_refl eq_refl
            (TimeString_HH "2" "5" "0" "0" eq_refl eq_refl eq_refl eq_refl)
            (TimeString_HH "2" "6" "7" "5" eq_refl eq_refl eq_refl eq_refl)
            ltac:(lia)).
  repeat split; discriminate.
Defined.

(** ** The signed-in user *)

(** The user the authentication callback stores always has a name and
    an e-mail, if only the placeholders: [requestBooking] and
    [cancelBookingByUser] never send such a user back to the login, and a
    user who signed in without an e-mail requests bookings whose
    [bookerEmail] is the text "No email provided". *)
Theorem signed_in_user_has_email (firebaseUser : App.FirebaseUser) :
  let u := App.userOfFirebaseUser firebaseUser in
  user_email u <> "" /\ user_name u <> ""
  /\ (forall e st listing startTime endTime,
         toast (App.requestBooking e (Some u) st listing startTime endTime).2
         <> "Please log in to book a driveway.")
  /\ (forall e st b,
         toast (App.cancelBookingByUser e (Some u) st b).2
         <> "You must be logged in to cancel a booking.")
  /\ (App.email firebaseUser = None \/ App.email firebaseUser = Some "" ->
      forall e listing startTime endTime,
        Booking.bookerEmail (requestedBooking e u listing startTime endTime)
        = "No email provided").
Proof.
  intros u.
  assert (Hor : forall v f, f <> "" -> App.orElse v f <> "").
  { intros [v |] f Hf; simpl; [| done].
    destruct (String.eqb_spec v ""); done. }
  assert (He : user_email u <> "") by (by apply Hor).
  assert (Hn : user_name u <> "") by (by apply Hor).
  split; [done |]. split; [done |]. split; [| split].
  - intros e st listing s t. unfold App.requestBooking.
    apply String.eqb_neq in He. rewrite He.
    destruct (isNaN (App.timeToMinutes s) || isNaN (App.timeToMinutes t));
      [discriminate |].
    destruct (addBookingToFirestore e (bookings st) _) as [[db bk] |];
      [| discriminate].
    destruct (emailOk e); simpl; discriminate.
  - intros e st b. unfold App.cancelBookingByUser.
    apply String.eqb_neq in He. rewrite He.
    destruct (updateBookingStatusInFirestore e (bookings st) (Booking.id b)
                canceled_by_user); [| discriminate].
    destruct (emailOk e); discriminate.
  - intros Hno e listing s t. simpl. unfold App.orElse.
    by destruct Hno as [-> | ->].
Qed.

Lemma signed_in_user_has_email_witness :
  Booking.bookerEmail
    (requestedBooking (calm "P")
       (App.userOfFirebaseUser
          (App.mkFirebaseUser "uid-7" None None None (Some "+15550100")))
       listing1 "10:00" "12:00")
  = "No email provided".
Proof.
  pose proof (signed_in_user_has_email
                (App.mkFirebaseUser "uid-7" None None None (Some "+15550100")))
    as (_ & _ & _ & _ & H).
  exact (H (or_introl eq_refl) (calm "P") listing1 "10:00" "12:00").
Defined.

(** ** The mail link *)

Lemma tag_rest_None (s : string) : hasGt s = false -> emailService.tag_rest s = None.
Proof.
  induction s as [| c s IH]; simpl; [done |].
  destruct (Ascii.eqb c ">"); simpl; [discriminate | exact IH].
Qed.

Lemma stripTags_no_gt (s : string) : hasGt s = false -> emailService.stripTags s = s.
Proof.
  induction s as [| c s IH]; simpl; [done |].
  destruct (Ascii.eqb c ">") eqn:Hc; simpl; [discriminate |]. intros Hs.
  rewrite (tag_rest_None _ Hs), (IH Hs). by destruct (Ascii.eqb c "<").
Qed.

Lemma stripTags_tagFree_both (s : string) :
  tagFree (emailService.stripTags s) = true
  /\ (forall r, emailService.tag_rest s = Some r -> tagFree r = true).
Proof.
  induction s as [| c s [IHs IHr]]; simpl; [done |]. split.
  - destruct (Ascii.eqb c "<") eqn:Hc.
    + destruct (emailService.tag_rest s) as [r |] eqn:Hr; [by apply IHr |].
      simpl. rewrite Hc, IHs. simpl.
      destruct (hasGt s) eqn:Hg; simpl.
      * exfalso. clear -Hr Hg. induction s as [| c' s IH]; simpl in *; [done |].
        destruct (Ascii.eqb c' ">"); [done | by apply IH].
      * by rewrite (stripTags_no_gt _ Hg), Hg.
    + simpl. by rewrite Hc, IHs.
  - intros r. destruct (Ascii.eqb c ">"); [by intros [= <-] | apply IHr].
Qed.

Lemma stripTags_fixed (t : string) :
  tagFree t = true -> emailService.stripTags t = t.
Proof.
  induction t as [| c t IH]; simpl; [done |].
  intros H. apply andb_prop in H as [H1 H2]. rewrite (IH H2).
  destruct (Ascii.eqb c "<"); [| done]. simpl in H1.
  apply negb_true_iff in H1. by rewrite (tag_rest_None _ H1).
Qed.

Lemma br_needs_gt (s : string) :
  (forall r, emailService.br_b s = Some r -> hasGt s = true)
  /\ (forall r, emailService.br_r s = Some r -> hasGt s = true)
  /\ (forall r, emailService.br_space s = Some r -> hasGt s = true)
  /\ (forall r, emailService.br_close s = Some r -> hasGt s = true).
Proof.
  induction s as [| c s (IHb & IHr & IHs & IHc)]; simpl; [done |].
  repeat split; intros r.
  - destruct (Ascii.eqb c "b" || Ascii.eqb c "B"); [| done].
    intros H. by rewrite (IHr _ H), orb_true_r.
  - destruct (Ascii.eqb c "r" || Ascii.eqb c "R"); [| done].
    intros H. by rewrite (IHs _ H), orb_true_r.
  - destruct (isWhiteSpace c); [intros H; by rewrite (IHs _ H), orb_true_r |].
    destruct (Ascii.eqb c "/"); [intros H; by rewrite (IHc _ H), orb_true_r |].
    by destruct (Ascii.eqb c ">").
  - by destruct (Ascii.eqb c ">").
Qed.

Lemma replaceBr_fixed (t : string) :
  tagFree t = true -> emailService.replaceBr t = t.
Proof.
  induction t as [| c t IH]; simpl; [done |].
  intros H. apply andb_prop in H as [H1 H2]. rewrite (IH H2).
  destruct (Ascii.eqb c "<"); [| done]. simpl in H1.
  apply negb_true_iff in H1.
  destruct (emailService.br_b t) as [r |] eqn:Hr; [| done].
  apply (proj1 (br_needs_gt t)) in Hr. congruence.
Qed.

(** The plain text [sendEmail] makes of the HTML body holds no tag any
    more (no ["<"] with a [">"] behind it), and converting it once more
    changes nothing. *)
Theorem plainTextBody_has_no_tag (htmlBody : string) :
  tagFree (emailService.plainTextBody htmlBody) = true
  /\ emailService.plainTextBody (emailService.plainTextBody htmlBody)
     = emailService.plainTextBody htmlBody.
Proof.
  assert (H : tagFree (emailService.plainTextBody htmlBody) = true)
    by apply stripTags_tagFree_both.
  split; [exact H |]. unfold emailService.plainTextBody at 1.
  by rewrite (replaceBr_fixed _ H), (stripTags_fixed _ H).
Qed.













(** ** Notifications *)

(** The status is written before the text of the notification is
    generated, and a failure of the generation is reported as a failure
    of the whole operation: the toast is an error toast, and yet the
    booking has its new status. *)
Theorem status_stays_when_notification_fails (e : Env) (u : User) (st : Store)
    (b : Booking.t) (d : Booking.data) :
  emailOk e = false ->
  writeOk e (Booking.id b) = true ->
  bookings st !! Booking.id b = Some d ->
  user_email u <> "" ->
  (bookings (App.denyBooking e st b).1 !! Booking.id b
   = Some (Booking.with_status denied d)
   /\ toastType (App.denyBooking e st b).2 = error)
  /\ (bookings (App.cancelBookingByUser e (Some u) st b).1 !! Booking.id b
      = Some (Booking.with_status canceled_by_user d)
      /\ toastType (App.cancelBookingByUser e (Some u) st b).2 = error)
  /\ (~ scanFinds e st b ->
      bookings (App.approveBooking e st b).1 !! Booking.id b
      = Some (Booking.with_status confirmed d)
      /\ (App.approveBooking e st b).2 = approvalFailed).
Proof.
  intros He Hw Hd Hu. apply String.eqb_neq in Hu. repeat split.
  - unfold App.denyBooking. rewrite (status_write_insert _ _ _ _ _ Hw Hd). simpl.
    apply lookup_insert_eq.
  - unfold App.denyBooking. by rewrite (status_write_insert _ _ _ _ _ Hw Hd), He.
  - unfold App.cancelBookingByUser.
    rewrite Hu, (status_write_insert _ _ _ _ _ Hw Hd). simpl.
    apply lookup_insert_eq.
  - unfold App.cancelBookingByUser.
    by rewrite Hu, (status_write_insert _ _ _ _ _ Hw Hd), He.
  - destruct (approveBooking_scan e st b) as [[Hs _] | [_ ->]]; [done |].
    rewrite (status_write_insert _ _ _ _ _ Hw Hd). simpl. apply lookup_insert_eq.
  - destruct (approveBooking_scan e st b) as [[Hs _] | [_ ->]]; [done |].
    by rewrite (status_write_insert _ _ _ _ _ Hw Hd), He.
Qed.

Lemma status_stays_when_notification_fails_witness :
  bookings
    (App.denyBooking (mkEnv true (λ _, true) false "" 0) store_A_requested
       (bookingOn1 "A" driver2 "10:00" "12:00" pending)).1 !! "A"
  = Some (Booking.fields (bookingOn1 "A" driver2 "10:00" "12:00" denied))
  /\ toastType
       (App.denyBooking (mkEnv true (λ _, true) false "" 0) store_A_requested
          (bookingOn1 "A" driver2 "10:00" "12:00" pending)).2 = error.
Proof.
  exact (proj1 (status_stays_when_notification_fails
                  (mkEnv true (λ _, true) false "" 0) driver2 store_A_requested
                  (bookingOn1 "A" driver2 "10:00" "12:00" pending)
                  (Booking.fields (bookingOn1 "A" driver2 "10:00" "12:00" pending))
                  eq_refl eq_refl eq_refl ltac:(discriminate))).
Defined.
